(** * DocDB key encoding helpers and the tablet Operation lifecycle

    A shallow embedding of

    - [src/yb/docdb/doc_kv_util.h]: big-endian integer appends, the zero
      encoding of string fields, and the inversion of an encoded
      DocHybridTime;
    - [src/yb/tablet/operations/operation.cc]: the lifecycle methods of
      [yb::tablet::Operation].

    Definitions come first (modules [DocKvUtil] and [Tablet]); the facts
    proved about them follow (modules [DocKvUtilFacts] and
    [OperationFacts]). *)

From Stdlib Require Import ZArith List Lia Bool String.
From Stdlib Require Import Strings.Byte.
Import ListNotations.

(* ===================================================================== *)
(** * Part I.  doc_kv_util.h                                              *)
(* ===================================================================== *)

Module DocKvUtil.

Local Open Scope Z_scope.

(** ** Bytes *)

(** A [char] of a key is a [Byte.byte]; a [std::string], a [KeyBuffer] and
    the contents of a [Slice] are lists of bytes. *)
Definition bytes := list byte.

Definition Z_of_byte (b : byte) : Z := Z.of_N (Byte.to_N b).

(** Conversion of an integer to [char]: the low eight bits are kept. *)
Definition byte_of_Z (z : Z) : byte :=
  match Byte.of_N (Z.to_N (Z.land z 255)) with
  | Some b => b
  | None => x00
  end.

(** [~c] on one byte. *)
Definition byte_not (b : byte) : byte :=
  byte_of_Z (Z.lnot (Z_of_byte b)).

(** Modelled from the spec: [Slice::compare] (yb/util/slice.h is not part
    of the sources).  The spec compares keys "byte-lexicographically":
    bytes are compared as unsigned values from the front, and a proper
    prefix sorts before its extensions. *)
Fixpoint compare_bytes (a b : bytes) : comparison :=
  match a, b with
  | [], [] => Eq
  | [], _ :: _ => Lt
  | _ :: _, [] => Gt
  | x :: a', y :: b' =>
      match Z.compare (Z_of_byte x) (Z_of_byte y) with
      | Eq => compare_bytes a' b'
      | c => c
      end
  end.

(** [starts_with a b]: [a] is a prefix of [b]. *)
Fixpoint starts_with (a b : bytes) : bool :=
  match a, b with
  | [], _ => true
  | _ :: _, [] => false
  | x :: a', y :: b' => Byte.eqb x y && starts_with a' b'
  end.

(** ** Big-endian integers *)

(** Modelled from the spec: [BigEndian::Store16/32/64] (yb/gutil/endian.h is
    not part of the sources).  The spec asks for "a fixed-width unsigned
    integer in big-endian byte order": [n] bytes, the most significant
    first, byte [i] being bits [8*(n-1-i) .. 8*(n-1-i)+7] of the value. *)
Fixpoint BigEndian_Store (n : nat) (val : Z) : bytes :=
  match n with
  | O => []
  | S k => byte_of_Z (Z.shiftr val (8 * Z.of_nat k)) :: BigEndian_Store k val
  end.

Definition BigEndian_Store16 := BigEndian_Store 2.
Definition BigEndian_Store32 := BigEndian_Store 4.
Definition BigEndian_Store64 := BigEndian_Store 8.

(** The unsigned number a byte sequence denotes when read most significant
    byte first. *)
Fixpoint BigEndian_value (bs : bytes) : Z :=
  match bs with
  | [] => 0
  | b :: r => Z_of_byte b * 256 ^ Z.of_nat (List.length r) + BigEndian_value r
  end.

(** [Buffer::append(buf, n)]. *)
Definition Buffer_append (dest : bytes) (buf : bytes) : bytes := dest ++ buf.

(** [AppendUInt16ToKey], [AppendUInt32ToKey], [AppendUInt64ToKey]:
    [char buf[sizeof(T)]; BigEndian::StoreN(buf, val); dest->append(buf, sizeof(buf))]. *)
Definition AppendUInt16ToKey (val : Z) (dest : bytes) : bytes :=
  let buf := BigEndian_Store16 val in Buffer_append dest buf.

Definition AppendUInt32ToKey (val : Z) (dest : bytes) : bytes :=
  let buf := BigEndian_Store32 val in Buffer_append dest buf.

Definition AppendUInt64ToKey (val : Z) (dest : bytes) : bytes :=
  let buf := BigEndian_Store64 val in Buffer_append dest buf.

(** ** Zero-encoded strings *)

Definition kEncodedKeyStrTerminatorSize : Z := 2.

(** Modelled from the spec: [AppendZeroEncodedStrToKey] (declared in the
    header, defined in doc_kv_util.cc which is not part of the sources).
    The header says it "encodes the given string by replacing '\x00' with
    "\x00\x01" and appends it to the given destination string". *)
Definition zero_encode_byte (b : byte) : bytes :=
  if Byte.eqb b x00 then [x00; x01] else [b].

Definition AppendZeroEncodedStrToKey (s : bytes) (dest : bytes) : bytes :=
  Buffer_append dest (flat_map zero_encode_byte s).

(** Modelled from the spec: [TerminateZeroEncodedKeyStr] (defined in
    doc_kv_util.cc).  The header says it "appends two zero characters to
    the given string". *)
Definition TerminateZeroEncodedKeyStr (dest : bytes) : bytes :=
  Buffer_append dest [x00; x00].

(** [ZeroEncodeAndAppendStrToKey] and [ZeroEncodeStr], inline in the header. *)
Definition ZeroEncodeAndAppendStrToKey (s : bytes) (dest : bytes) : bytes :=
  TerminateZeroEncodedKeyStr (AppendZeroEncodedStrToKey s dest).

Definition ZeroEncodeStr (s : bytes) : bytes :=
  let result := [] in ZeroEncodeAndAppendStrToKey s result.

(** Decoding errors.  The spec calls the family [MalformedEncoding] and
    lists its three causes. *)
Inductive MalformedEncoding : Type :=
| TerminatorAbsent
| EscapeIncomplete
| EscapeInvalid (b : byte)
| TrailingBytes (n : nat).

Inductive Result (A : Type) : Type :=
| Ok (a : A)
| Err (e : MalformedEncoding).
Arguments Ok {A} a.
Arguments Err {A} e.

(** Modelled from the spec: [DecodeZeroEncodedStr] on a slice and an
    output string (defined in doc_kv_util.cc).  Spec: "reverses escaping, consuming a
    prefix of slice up to and including a terminator; returns the decoded
    value and how much input was consumed ... Fails with a MalformedEncoding
    error if the terminator is absent or an escape sequence is
    incomplete/invalid".  The result pairs the decoded string with what is
    left of the slice once the consumed prefix is removed.  (The header's own
    comment calls the terminator optional; the facts below only decode
    terminated input, on which the two readings agree.) *)
Fixpoint DecodeZeroEncodedStr (slice : bytes) : Result (bytes * bytes) :=
  match slice with
  | [] => Err TerminatorAbsent
  | c :: rest =>
      if Byte.eqb c x00 then
        match rest with
        | [] => Err EscapeIncomplete
        | d :: rest' =>
            if Byte.eqb d x00 then Ok ([], rest')
            else if Byte.eqb d x01 then
              match DecodeZeroEncodedStr rest' with
              | Ok (result, remaining) => Ok (x00 :: result, remaining)
              | Err e => Err e
              end
            else Err (EscapeInvalid d)
        end
      else
        match DecodeZeroEncodedStr rest with
        | Ok (result, remaining) => Ok (c :: result, remaining)
        | Err e => Err e
        end
  end.

(** Number of bytes of [slice] that a successful decode consumed. *)
Definition consumed (slice remaining : bytes) : nat :=
  (List.length slice - List.length remaining)%nat.

(** Modelled from the spec: [DecodeZeroEncodedStr] on a whole
    string, "as Decode,
    but additionally fails unless the entire input is consumed". *)
Definition DecodeZeroEncodedStr_exact (encoded_str : bytes) : Result bytes :=
  match DecodeZeroEncodedStr encoded_str with
  | Ok (result, []) => Ok result
  | Ok (_, remaining) => Err (TrailingBytes (List.length remaining))
  | Err e => Err e
  end.

(** ** Inverting an encoded DocHybridTime *)






(** The complement of every byte of a sequence. *)
Definition invert_bytes (bs : bytes) : bytes := map byte_not bs.

Section EncodedDocHybridTime.

(** [kMaxBytesPerEncodedHybridTime] is declared in
    yb/common/doc_hybrid_time.h, which is not part of the sources: it is a
    parameter here, and so is the number of low-order bits of the last byte
    that hold the encoded size. *)
Variable kMaxBytesPerEncodedHybridTime : nat.
Variable kNumBitsForHybridTimeSize : nat.

(** [sizeof(size_t)] on the 64-bit platforms the code base targets. *)
Definition sizeof_size_t : nat := 8.

Definition kMaxWordsPerEncodedHybridTimeWithValueType : nat :=
  ((kMaxBytesPerEncodedHybridTime + 1) + sizeof_size_t - 1) / sizeof_size_t.

(** [DocHybridTimeWordBuffer] is
    [std::array<size_t, kMaxWordsPerEncodedHybridTimeWithValueType>]; this is
    the number of bytes it occupies. *)
Definition DocHybridTimeWordBuffer_bytes : nat :=
  (kMaxWordsPerEncodedHybridTimeWithValueType * sizeof_size_t)%nat.




End EncodedDocHybridTime.


End DocKvUtil.

(* ===================================================================== *)
(** * Part II.  tablet/operations/operation.cc                            *)
(* ===================================================================== *)

Module Tablet.

Local Open Scope Z_scope.
Local Open Scope string_scope.

(** ** Values *)

(** Modelled from the spec: [OpId] (its header is not part of the sources).
    Spec: "an identifier (term, index) locating an entry within the
    replicated log". *)
Record OpId : Type := MkOpId { term : Z; index : Z }.

(** Modelled from the spec: [HybridTime] (yb/common/hybrid_time.h is not
    part of the sources).  Spec: "unset is a distinct valid state from any
    assigned value".  A hybrid time is its 64-bit representation
    ([ToUint64]); the unset one is a reserved representation, here the
    largest 64-bit word, and [is_valid] tells the two apart. *)
Record HybridTime : Type := MkHybridTime { ToUint64 : Z }.

Definition kInvalidHybridTimeValue : Z := 2 ^ 64 - 1.

Definition HybridTime_kInvalid : HybridTime :=
  MkHybridTime kInvalidHybridTimeValue.

Definition is_valid (ht : HybridTime) : bool :=
  negb (Z.eqb (ToUint64 ht) kInvalidHybridTimeValue).

(** Modelled from the spec: [Status] (yb/util/status.h is not part of the
    sources): success, or an error code, such as [IllegalState], with a
    message. *)
Inductive StatusCode : Type :=
| kIllegalState | kCorruption | kAborted | kRuntimeError | kInvalidArgument.

Inductive Status : Type :=
| Status_OK
| Status_Error (code : StatusCode) (msg : string).

Definition ok (s : Status) : bool :=
  match s with Status_OK => true | Status_Error _ _ => false end.

(** Modelled from the spec: the replicate message (its class is generated
    and not part of the sources), reduced to the fields that [Operation]
    writes, "id, committed id, timestamp, and a monotonically increasing
    counter snapshot"; a field that has not been set is [None]. *)
Record ReplicateMsg : Type := MkReplicateMsg {
  msg_id : option OpId;
  msg_committed_op_id : option OpId;
  msg_hybrid_time : option Z;
  msg_monotonic_counter : option Z
}.

(** Modelled from the spec: [ConsensusRound] (yb/consensus/consensus_round.h
    is not part of the sources).  Spec: the round "supplies an id and a
    mutable outgoing message"; the id is the one its message carries. *)
Record ConsensusRound : Type := MkConsensusRound {
  replicate_msg : ReplicateMsg
}.

Definition ConsensusRound_id (r : ConsensusRound) : OpId :=
  match msg_id (replicate_msg r) with
  | Some i => i
  | None => MkOpId 0 0
  end.

(** ** Collaborators *)

(** The MVCC manager and the clock of the tablet are external: an interface
    with an abstract state each. *)
Class Collaborators : Type := {
  MvccManager : Type;
  AddLeaderPending : OpId -> MvccManager -> HybridTime * MvccManager;
  AddFollowerPending : HybridTime -> OpId -> MvccManager -> MvccManager;
  MvccManager_Replicated : HybridTime -> OpId -> MvccManager -> MvccManager;
  MvccManager_Aborted : HybridTime -> OpId -> MvccManager -> MvccManager;
  Clock : Type;
  Now : Clock -> HybridTime * Clock
}.

(** The virtual methods of [Operation] that each operation type supplies.
    [DoReplicated leader_term complete_status] gives the returned status and
    the new value of the [complete_status] out-parameter.  The hooks without
    a result ([UpdateRequestFromConsensusRound], [AddedAsPending],
    [RemovedFromPending], [Release]) are recorded as events. *)
Class OperationKind : Type := {
  use_mvcc : bool;
  DoReplicated : Z -> Status -> Status * Status;
  DoAborted : Status -> Status
}.

(** An identifier for the [std::function] registered as completion callback. *)
Definition OperationCompletionCallback := nat.

Inductive Severity : Type := ERROR | DFATAL | FATAL.

(** What an execution does to the world outside the [Operation] object, in
    the order it happens. *)
Inductive Event : Type :=
| MvccAddLeaderPending (op_id : OpId) (result : HybridTime)
| MvccAddFollowerPending (ht : HybridTime) (op_id : OpId)
| MvccReplicated (ht : HybridTime) (op_id : OpId)
| MvccAborted (ht : HybridTime) (op_id : OpId)
| ClockNow (result : HybridTime)
| CallDoReplicated (leader_term : Z)
| CallDoAborted (status : Status)
| CallUpdateRequestFromConsensusRound
| CallAddedAsPending
| CallRemovedFromPending
| CallRelease
| CompletionCallback (clbk : OperationCompletionCallback) (status : Status)
| LogMessage (severity : Severity) (prefix text : string)
             (status : option Status).

Definition is_mvcc_event (e : Event) : bool :=
  match e with
  | MvccAddLeaderPending _ _ | MvccAddFollowerPending _ _
  | MvccReplicated _ _ | MvccAborted _ _ => true
  | _ => false
  end.

Definition is_completion_event (e : Event) : bool :=
  match e with CompletionCallback _ _ => true | _ => false end.

Definition mvcc_events (l : list Event) : list Event :=
  filter is_mvcc_event l.

Definition other_events (l : list Event) : list Event :=
  filter (fun e => negb (is_mvcc_event e)) l.

(** How an execution ends: a method returns, or the process terminates. *)
Inductive Termination : Type :=
| FatalLog (text : string)
| DCheckFailed (condition : string)
| NullDereference.

Inductive Outcome (A : Type) : Type :=
| Returned (a : A)
| Terminated (t : Termination).
Arguments Returned {A} a.
Arguments Terminated {A} t.

Section Operation.

Context {collaborators : Collaborators}.

(** The owning tablet, as far as [Operation] uses it. *)
Record Tablet : Type := MkTablet {
  tablet_id : string;
  mvcc_manager : MvccManager;
  clock : Clock;
  monotonic_counter : Z
}.

(** The data members of [Operation] that the methods below read or write.
    [consensus_round_] is a shared pointer, null until a round is bound; the
    round is held here as the operation sees it.  ([consensus_round_atomic_]
    mirrors that pointer and is not kept apart.) *)
Record Operation : Type := MkOperation {
  complete_ : bool;
  completion_clbk_ : option OperationCompletionCallback;
  consensus_round_ : option ConsensusRound;
  hybrid_time_ : HybridTime;
  op_id_ : OpId
}.

(** The state an execution runs in: the object, what its weak pointer
    [tablet_] resolves to ([None] once the tablet has been destroyed), and
    the events so far. *)
Record World : Type := MkWorld {
  self : Operation;
  tablet_ : option Tablet;
  events : list Event
}.

(** ** Executions *)

(** A method either returns or terminates the process; the world it leaves
    is kept in both cases. *)
Definition M (A : Type) : Type := World -> Outcome A * World.

Definition ret {A} (a : A) : M A := fun w => (Returned a, w).

Definition bind {A B} (m : M A) (k : A -> M B) : M B :=
  fun w =>
    match m w with
    | (Returned a, w') => k a w'
    | (Terminated t, w') => (Terminated t, w')
    end.

Definition terminate {A} (t : Termination) : M A :=
  fun w => (Terminated t, w).

Definition emit (e : Event) : M unit :=
  fun w => (Returned tt, MkWorld (self w) (tablet_ w) (events w ++ [e])).

Definition this : M Operation := fun w => (Returned (self w), w).

Definition update (f : Operation -> Operation) : M unit :=
  fun w => (Returned tt, MkWorld (f (self w)) (tablet_ w) (events w)).

Definition when (b : bool) (m : M unit) : M unit := if b then m else ret tt.

End Operation.

Declare Scope op_scope.
Delimit Scope op_scope with op.
Notation "x <- m ;; k" := (bind m (fun x => k))
  (at level 61, m at next level, right associativity) : op_scope.
Notation "m ;; k" := (bind m (fun _ => k))
  (at level 61, right associativity) : op_scope.

Section Methods.

Context {collaborators : Collaborators} {kind : OperationKind}.
Local Open Scope op_scope.

(** Field assignments. *)
Definition set_complete_ (b : bool) (o : Operation) : Operation :=
  MkOperation b (completion_clbk_ o) (consensus_round_ o) (hybrid_time_ o)
              (op_id_ o).

Definition set_consensus_round_ (r : option ConsensusRound) (o : Operation)
  : Operation :=
  MkOperation (complete_ o) (completion_clbk_ o) r (hybrid_time_ o) (op_id_ o).

Definition set_hybrid_time_ (ht : HybridTime) (o : Operation) : Operation :=
  MkOperation (complete_ o) (completion_clbk_ o) (consensus_round_ o) ht
              (op_id_ o).

Definition set_op_id_ (id : OpId) (o : Operation) : Operation :=
  MkOperation (complete_ o) (completion_clbk_ o) (consensus_round_ o)
              (hybrid_time_ o) id.

(** ** Macros of yb/util/logging.h and yb/util/status.h *)

(** Modelled from the spec: [DCHECK] (the macro is not part of the sources).
    Spec: "an assertion ... violating this is a programming defect, not a
    recoverable error".  A violated assertion ends the execution: this is
    the assertion as it is checked, that is, in a build with assertions
    enabled; a build without them does not evaluate it.  The facts below
    that mention [DCheckFailed] are about the checked assertion; the others
    are on executions in which every assertion holds. *)
Definition DCHECK (condition : bool) (text : string) : M unit :=
  if condition then ret tt else terminate (DCheckFailed text).

(** [LOG(FATAL) << text]: the message is logged and the process ends. *)
Definition LOG_FATAL {A} (text : string) : M A :=
  emit (LogMessage FATAL "" text None) ;;
  terminate (FatalLog text).

Definition destroyed_text : string :=
  "Tablet referenced by an operation has already been destroyed".

(** [Operation::tablet()]. *)
Definition tablet : M Tablet :=
  fun w =>
    let shared_tablet := tablet_ w in
    match shared_tablet with
    | None =>
        LOG_FATAL destroyed_text w
    | Some t => (Returned t, w)
    end.

(** [Operation::tablet_safe()]: a [Result<TabletPtr>]. *)
Definition tablet_safe : M (Status + Tablet) :=
  fun w =>
    let shared_tablet := tablet_ w in
    match shared_tablet with
    | None =>
        (Returned (inl (Status_Error kIllegalState destroyed_text)), w)
    | Some t => (Returned (inr t), w)
    end.

(** [Operation::LogPrefix()]: [Format("T $0 $1: ", tablet()->tablet_id(), this)].
    The printed address of the object is left out of the text. *)
Definition LogPrefix : M string :=
  t <- tablet ;;
  ret ("T " ++ tablet_id t ++ ": ").

(** Modelled from the spec: [LOG_WITH_PREFIX(DFATAL)] (the macro is not part
    of the sources).  Spec, on the one use of it: "log a severe diagnostic
    and return", "logged at severe level, not propagated as an error and not
    crashing".  The line starts with the prefix that [LogPrefix()], defined
    in operation.cc for the prefixed logging macros, computes. *)
Definition LOG_WITH_PREFIX (severity : Severity) (text : string)
           (status : Status) : M unit :=
  prefix <- LogPrefix ;;
  emit (LogMessage severity prefix text (Some status)).

(** ** Accessors declared in operation.h *)

(** [complete_.compare_exchange_strong(expected, true)] with
    [expected == false]. *)
Definition complete_compare_exchange_strong : M bool :=
  o <- this ;;
  if complete_ o then ret false
  else update (set_complete_ true) ;; ret true.

(** Modelled from the spec: [hybrid_time_even_if_unset()] and [op_id()]
    (defined in operation.h, which is not part of the sources) read the
    field. *)
Definition hybrid_time_even_if_unset : M HybridTime :=
  o <- this ;; ret (hybrid_time_ o).

Definition op_id : M OpId :=
  o <- this ;; ret (op_id_ o).

(** Modelled from the spec: [hybrid_time()] (defined in operation.h, which
    is not part of the sources).  Spec: the timestamp is "set at most once;
    unset is a distinct valid state".  [Aborted] reads it through
    [hybrid_time_even_if_unset()] because it may be unset there; the plain
    accessor is taken to assert that it is set.  The facts below use it on
    executions that return only. *)
Definition hybrid_time : M HybridTime :=
  o <- this ;;
  DCHECK (is_valid (hybrid_time_ o)) "hybrid_time_.is_valid()" ;;
  ret (hybrid_time_ o).

(** The MVCC manager and the clock of a tablet that the caller has
    resolved and holds: the collaborator runs and its new state is stored. *)
Definition on_mvcc_manager {A} (f : MvccManager -> A * MvccManager) : M A :=
  fun w =>
    match tablet_ w with
    | None => (Terminated NullDereference, w)
    | Some t =>
        let (a, mvcc) := f (mvcc_manager t) in
        (Returned a,
         MkWorld (self w)
                 (Some (MkTablet (tablet_id t) mvcc (clock t)
                                 (monotonic_counter t)))
                 (events w))
    end.

Definition on_clock {A} (f : Clock -> A * Clock) : M A :=
  fun w =>
    match tablet_ w with
    | None => (Terminated NullDereference, w)
    | Some t =>
        let (a, c) := f (clock t) in
        (Returned a,
         MkWorld (self w)
                 (Some (MkTablet (tablet_id t) (mvcc_manager t) c
                                 (monotonic_counter t)))
                 (events w))
    end.

(** Setters of the replicate message. *)
Definition set_id (id : OpId) (m : ReplicateMsg) : ReplicateMsg :=
  MkReplicateMsg (Some id) (msg_committed_op_id m) (msg_hybrid_time m)
                 (msg_monotonic_counter m).

Definition set_committed_op_id (id : OpId) (m : ReplicateMsg) : ReplicateMsg :=
  MkReplicateMsg (msg_id m) (Some id) (msg_hybrid_time m)
                 (msg_monotonic_counter m).

Definition set_hybrid_time_field (v : Z) (m : ReplicateMsg) : ReplicateMsg :=
  MkReplicateMsg (msg_id m) (msg_committed_op_id m) (Some v)
                 (msg_monotonic_counter m).

Definition set_monotonic_counter (v : Z) (m : ReplicateMsg) : ReplicateMsg :=
  MkReplicateMsg (msg_id m) (msg_committed_op_id m) (msg_hybrid_time m)
                 (Some v).

(** ** The virtual hooks without a result *)

(** Each call is dispatched to the operation type and shows as an event.
    ([Operation::Release] itself, in operation.cc, has an empty body.) *)

Definition UpdateRequestFromConsensusRound : M unit :=
  emit CallUpdateRequestFromConsensusRound.
Definition AddedAsPending : M unit := emit CallAddedAsPending.
Definition RemovedFromPending : M unit := emit CallRemovedFromPending.
Definition Release : M unit := emit CallRelease.

(** ** Methods of operation.cc *)

(** What a first completion adds to the events. *)
Definition completion_events (o : Operation) (status : Status) : list Event :=
  match completion_clbk_ o with
  | Some clbk => [CompletionCallback clbk status]
  | None => []
  end.

(** What [RemovedFromPending], called when [was_pending], adds to them. *)
Definition pending_events (was_pending : bool) : list Event :=
  if was_pending then [CallRemovedFromPending] else [].

Definition called_twice_text : string :=
  "CompleteWithStatus called twice, new status: ".

(** [Operation::CompleteWithStatus]. *)
Definition CompleteWithStatus (status : Status) : M unit :=
  exchanged <- complete_compare_exchange_strong ;;
  if negb exchanged then
    LOG_WITH_PREFIX DFATAL called_twice_text status ;;
    ret tt
  else
    o <- this ;;
    match completion_clbk_ o with
    | Some clbk => emit (CompletionCallback clbk status)
    | None => ret tt
    end.

(** [Operation::set_consensus_round]. *)
Definition set_consensus_round (consensus_round : ConsensusRound) : M unit :=
  update (set_consensus_round_ (Some consensus_round)) ;;
  update (set_op_id_ (ConsensusRound_id consensus_round)) ;;
  UpdateRequestFromConsensusRound.

(** [Operation::set_hybrid_time]. *)
Definition set_hybrid_time (hybrid_time : HybridTime) : M unit :=
  o <- this ;;
  DCHECK (negb (is_valid (hybrid_time_ o))) "!hybrid_time_.is_valid()" ;;
  update (set_hybrid_time_ hybrid_time).

(** [Operation::WriteHybridTime]. *)
Definition WriteHybridTime : M HybridTime := hybrid_time.

(** [Operation::AddedToLeader]. *)
Definition AddedToLeader (op_id committed_op_id : OpId) : M unit :=
  shared_tablet <- tablet ;;
  hybrid_time <-
    (if use_mvcc then
       ht <- on_mvcc_manager (AddLeaderPending op_id) ;;
       emit (MvccAddLeaderPending op_id ht) ;;
       ret ht
     else
       ht <- on_clock Now ;;
       emit (ClockNow ht) ;;
       ret ht) ;;
  update (set_hybrid_time_ hybrid_time) ;;
  update (set_op_id_ op_id) ;;
  o <- this ;;
  match consensus_round_ o with
  | None => terminate NullDereference
  | Some round =>
      let replicate_msg := replicate_msg round in
      let replicate_msg := set_id op_id replicate_msg in
      let replicate_msg := set_committed_op_id committed_op_id replicate_msg in
      let replicate_msg :=
        set_hybrid_time_field (ToUint64 hybrid_time) replicate_msg in
      t <- tablet ;;
      let replicate_msg :=
        set_monotonic_counter (monotonic_counter t) replicate_msg in
      update (set_consensus_round_ (Some (MkConsensusRound replicate_msg)))
  end ;;
  AddedAsPending.

(** [Operation::AddedToFollower]. *)
Definition AddedToFollower : M unit :=
  when use_mvcc
    (tablet ;;
     ht <- hybrid_time ;;
     id <- op_id ;;
     on_mvcc_manager (fun m => (tt, AddFollowerPending ht id m)) ;;
     emit (MvccAddFollowerPending ht id)) ;;
  AddedAsPending.

(** [Operation::Aborted(bool was_pending)]. *)
Definition Aborted_was_pending (was_pending : bool) : M unit :=
  when use_mvcc
    (hybrid_time <- hybrid_time_even_if_unset ;;
     when (is_valid hybrid_time)
       (tablet ;;
        id <- op_id ;;
        on_mvcc_manager (fun m => (tt, MvccManager_Aborted hybrid_time id m)) ;;
        emit (MvccAborted hybrid_time id))) ;;
  when was_pending RemovedFromPending.

(** [Operation::Replicated(WasPending was_pending)]. *)
Definition Replicated_was_pending (was_pending : bool) : M unit :=
  when use_mvcc
    (tablet ;;
     ht <- hybrid_time ;;
     id <- op_id ;;
     on_mvcc_manager (fun m => (tt, MvccManager_Replicated ht id m)) ;;
     emit (MvccReplicated ht id)) ;;
  when was_pending RemovedFromPending.

(** [Operation::Replicated(int64_t leader_term, WasPending was_pending)].
    [RETURN_NOT_OK] returns the status of its argument when that is not OK. *)
Definition Replicated (leader_term : Z) (was_pending : bool) : M Status :=
  let complete_status := Status_OK in
  emit (CallDoReplicated leader_term) ;;
  let (s, complete_status) := DoReplicated leader_term complete_status in
  if negb (ok s) then ret s
  else
    Replicated_was_pending was_pending ;;
    Release ;;
    CompleteWithStatus complete_status ;;
    ret Status_OK.

(** [Operation::Aborted(const Status& status, bool was_pending)].  The
    [VLOG_WITH_PREFIX_AND_FUNC(4)] statement at its head prints nothing at
    the default verbosity and is left out. *)
Definition Aborted (status : Status) (was_pending : bool) : M unit :=
  Aborted_was_pending was_pending ;;
  Release ;;
  emit (CallDoAborted status) ;;
  CompleteWithStatus (DoAborted status).

(** Two worlds that differ in MVCC matters only: the same object, the same
    tablet up to the state of its MVCC manager, the same events once the
    MVCC calls are taken out. *)
Definition same_but_mvcc (w1 w2 : World) : Prop :=
  self w1 = self w2
  /\ option_map tablet_id (tablet_ w1) = option_map tablet_id (tablet_ w2)
  /\ other_events (events w1) = other_events (events w2).

End Methods.

(** ** A small tablet for concrete runs *)

(** An MVCC manager that hands out successive hybrid times and a clock that
    ticks; both states are the last value issued. *)
Definition counting_collaborators : Collaborators := {|
  MvccManager := Z;
  AddLeaderPending := fun _ last => (MkHybridTime (last + 1), last + 1);
  AddFollowerPending := fun _ _ last => last;
  MvccManager_Replicated := fun _ _ last => last;
  MvccManager_Aborted := fun _ _ last => last;
  Clock := Z;
  Now := fun last => (MkHybridTime (last + 1), last + 1)
|}.

(** An operation type that uses MVCC and whose hooks succeed. *)
Definition mvcc_kind : OperationKind := {|
  use_mvcc := true;
  DoReplicated := fun _ complete_status => (Status_OK, complete_status);
  DoAborted := fun status => status
|}.

(** The same without MVCC. *)
Definition plain_kind : OperationKind := {|
  use_mvcc := false;
  DoReplicated := fun _ complete_status => (Status_OK, complete_status);
  DoAborted := fun status => status
|}.

(** An operation type whose apply hook fails. *)
Definition failing_kind : OperationKind := {|
  use_mvcc := true;
  DoReplicated :=
    fun _ complete_status =>
      (Status_Error kRuntimeError "apply failed", complete_status);
  DoAborted := fun status => status
|}.

(** [with_use_mvcc b kind]: the hooks of [kind], with [use_mvcc()] answering
    [b]. *)
Definition with_use_mvcc (b : bool) (kind : OperationKind) : OperationKind := {|
  use_mvcc := b;
  DoReplicated := @DoReplicated kind;
  DoAborted := @DoAborted kind
|}.

Definition empty_msg : ReplicateMsg := MkReplicateMsg None None None None.

(** An operation as its constructor leaves it, with a completion callback
    registered, and a tablet "t1" whose MVCC manager last issued 100, whose
    clock last read 7 and whose monotonic counter is 42. *)
Definition fresh_operation : Operation :=
  MkOperation false (Some 0%nat) None HybridTime_kInvalid (MkOpId 0 0).

Definition example_tablet : @Tablet counting_collaborators :=
  @MkTablet counting_collaborators "t1" 100 7 42.

Definition example_world : @World counting_collaborators :=
  @MkWorld counting_collaborators fresh_operation (Some example_tablet) [].

(** The same operation bound to a round. *)
Definition bound_world : @World counting_collaborators :=
  @MkWorld counting_collaborators
    (set_consensus_round_ (Some (MkConsensusRound empty_msg)) fresh_operation)
    (Some example_tablet) [].

(** The bound operation once a hybrid time, 50, and an id, (1, 5), have
    been assigned to it. *)
Definition assigned_world : @World counting_collaborators :=
  @MkWorld counting_collaborators
    (MkOperation false (Some 0%nat) (Some (MkConsensusRound empty_msg))
                 (MkHybridTime 50) (MkOpId 1 5))
    (Some example_tablet) [].

(** ** Sequences of calls *)

(** What can happen to an operation, one step at a time: a call of one of
    the methods of operation.cc, or the destruction of its tablet. *)
Inductive Call : Type :=
| Call_set_consensus_round (consensus_round : ConsensusRound)
| Call_set_hybrid_time (hybrid_time : HybridTime)
| Call_AddedToLeader (op_id committed_op_id : OpId)
| Call_AddedToFollower
| Call_Replicated (leader_term : Z) (was_pending : bool)
| Call_Aborted (status : Status) (was_pending : bool)
| Call_CompleteWithStatus (status : Status)
| TabletDestroyed.

Definition writes_hybrid_time (c : Call) : bool :=
  match c with
  | Call_set_hybrid_time _ | Call_AddedToLeader _ _ => true
  | _ => false
  end.

Definition writes_op_id (c : Call) : bool :=
  match c with
  | Call_set_consensus_round _ | Call_AddedToLeader _ _ => true
  | _ => false
  end.

Section Lifecycle.

Context {collaborators : Collaborators} {kind : OperationKind}.
Local Open Scope op_scope.

(** The weak pointer [tablet_] stops resolving. *)
Definition destroy_tablet : M unit :=
  fun w => (Returned tt, MkWorld (self w) None (events w)).

Definition run_call (c : Call) : M unit :=
  match c with
  | Call_set_consensus_round consensus_round =>
      set_consensus_round consensus_round
  | Call_set_hybrid_time hybrid_time => set_hybrid_time hybrid_time
  | Call_AddedToLeader op_id committed_op_id =>
      AddedToLeader op_id committed_op_id
  | Call_AddedToFollower => AddedToFollower
  | Call_Replicated leader_term was_pending =>
      Replicated leader_term was_pending ;; ret tt
  | Call_Aborted status was_pending => Aborted status was_pending
  | Call_CompleteWithStatus status => CompleteWithStatus status
  | TabletDestroyed => destroy_tablet
  end.

(** The calls are made in order, until one of them ends the process. *)
Fixpoint run_calls (cs : list Call) : M unit :=
  match cs with
  | [] => ret tt
  | c :: cs' => run_call c ;; run_calls cs'
  end.

(** How many times the completion callback has been invoked. *)
Definition delivered (w : World) : nat :=
  List.length (filter is_completion_event (events w)).

End Lifecycle.

End Tablet.

(* ===================================================================== *)
(** * Part III.  rocksdb/util/xfunc.h                                     *)
(* ===================================================================== *)

Module XFunc.

Local Open Scope string_scope.

(** The static members of [XFuncPoint].  The class is compiled only when
    [XFUNC] is defined; without it [XFUNC_TEST] expands to nothing. *)
Record XFuncPoint : Type := MkXFuncPoint {
  xfunc_test_ : string;
  initialized_ : bool;
  enabled_ : bool;
  skip_policy_ : Z
}.

(** [XFuncPoint::Init()]; [env] is what [getenv("ROCKSDB_XFUNC_TEST")]
    returns, [None] for a null pointer. *)
Definition Init (env : option string) (p : XFuncPoint) : XFuncPoint :=
  match env with
  | None => MkXFuncPoint "" true false (skip_policy_ p)
  | Some s => MkXFuncPoint s true true (skip_policy_ p)
  end.

Definition Initialized (p : XFuncPoint) : bool := initialized_ p.

(** [XFuncPoint::Check(test)]; [test.compare(x) == 0] is equality. *)
Definition Check (test : string) (p : XFuncPoint) : bool :=
  enabled_ p && (String.eqb test "" || String.eqb test (xfunc_test_ p)).

Definition SetSkip (skip : Z) (p : XFuncPoint) : XFuncPoint :=
  MkXFuncPoint (xfunc_test_ p) (initialized_ p) (enabled_ p) skip.

Definition GetSkip (p : XFuncPoint) : Z := skip_policy_ p.

(** The macro [XFUNC_TEST(condition, location, lfname, fname, ...)] under
    [XFUNC]: the new static state, and whether [lfname()] has been called. *)
Definition XFUNC_TEST (condition : string) (env : option string)
           (p : XFuncPoint) : XFuncPoint * bool :=
  let p := if negb (Initialized p) then Init env p else p in
  (p, Check condition p).

(** Test points met one after the other; each comes with its condition and
    with the value the environment variable has when it is met. *)
Fixpoint run_test_points (points : list (string * option string))
         (p : XFuncPoint) : list bool * XFuncPoint :=
  match points with
  | [] => ([], p)
  | (condition, env) :: rest =>
      let (p1, ran) := XFUNC_TEST condition env p in
      let (rans, p2) := run_test_points rest p1 in
      (ran :: rans, p2)
  end.

(** Whether a test point with [condition] is to run when the variable was
    [env] at initialization. *)
Definition selected (env : option string) (condition : string) : bool :=
  match env with
  | None => false
  | Some s => String.eqb condition "" || String.eqb condition s
  end.

End XFunc.

(* ===================================================================== *)
(** * Facts about doc_kv_util.h                                           *)
(* ===================================================================== *)

Module DocKvUtilFacts.
Import DocKvUtil.
Local Open Scope Z_scope.

(** ** Bytes *)

Lemma Z_of_byte_range (b : byte) : 0 <= Z_of_byte b < 256.
Proof.
  unfold Z_of_byte. pose proof (Byte.to_N_bounded b). lia.
Qed.

Lemma Z_of_byte_inj (a b : byte) : Z_of_byte a = Z_of_byte b -> a = b.
Proof.
  unfold Z_of_byte. intros H. apply N2Z.inj in H.
  assert (Some a = Some b) as E.
  { rewrite <- (Byte.of_to_N a), <- (Byte.of_to_N b). now rewrite H. }
  now inversion E.
Qed.

Lemma Z_of_byte_of_Z (z : Z) : Z_of_byte (byte_of_Z z) = z mod 256.
Proof.
  unfold byte_of_Z, Z_of_byte.
  change 255 with (Z.ones 8). rewrite Z.land_ones by lia.
  change (2 ^ 8) with 256.
  pose proof (Z.mod_pos_bound z 256 ltac:(lia)) as Hb.
  destruct (Byte.of_N (Z.to_N (z mod 256))) as [b|] eqn:E.
  - apply Byte.to_of_N in E. rewrite E. lia.
  - apply Byte.of_N_None_iff in E. lia.
Qed.

Lemma byte_of_Z_of_byte (b : byte) : byte_of_Z (Z_of_byte b) = b.
Proof.
  apply Z_of_byte_inj. rewrite Z_of_byte_of_Z.
  apply Z.mod_small, Z_of_byte_range.
Qed.



(** ** Byte-lexicographic comparison *)


Lemma compare_bytes_app (p a b : bytes) :
  compare_bytes (p ++ a) (p ++ b) = compare_bytes a b.
Proof.
  induction p as [|x p IH]; simpl; [reflexivity|].
  now rewrite Z.compare_refl.
Qed.

(** ** Big-endian integers *)

Lemma BigEndian_Store_length (n : nat) (val : Z) :
  List.length (BigEndian_Store n val) = n.
Proof.
  induction n as [|k IH]; simpl; [reflexivity | now rewrite IH].
Qed.

Lemma BigEndian_value_bound (bs : bytes) :
  0 <= BigEndian_value bs < 256 ^ Z.of_nat (List.length bs).
Proof.
  induction bs as [|b r IH]; simpl BigEndian_value; simpl List.length.
  - simpl. lia.
  - pose proof (Z_of_byte_range b) as Hb.
    rewrite Nat2Z.inj_succ, Z.pow_succ_r by lia.
    nia.
Qed.

Lemma BigEndian_value_Store (n : nat) (val : Z) :
  BigEndian_value (BigEndian_Store n val) = val mod 256 ^ Z.of_nat n.
Proof.
  induction n as [|k IH].
  - simpl. now rewrite Z.mod_1_r.
  - cbn [BigEndian_Store BigEndian_value].
    rewrite BigEndian_Store_length, IH, Z_of_byte_of_Z.
    rewrite Z.shiftr_div_pow2 by lia.
    replace (2 ^ (8 * Z.of_nat k)) with (256 ^ Z.of_nat k)
      by (change 256 with (2 ^ 8); rewrite <- Z.pow_mul_r by lia; reflexivity).
    rewrite Nat2Z.inj_succ, Z.pow_succ_r by lia.
    assert (0 < 256 ^ Z.of_nat k) by (apply Z.pow_pos_nonneg; lia).
    rewrite (Z.mul_comm 256), Z.rem_mul_r by lia.
    lia.
Qed.

Lemma BigEndian_value_Store_small (n : nat) (val : Z) :
  0 <= val < 256 ^ Z.of_nat n ->
  BigEndian_value (BigEndian_Store n val) = val.
Proof.
  intros H. rewrite BigEndian_value_Store. now apply Z.mod_small.
Qed.

(** On sequences of one length the byte order is the order of the numbers
    they denote. *)
Lemma compare_bytes_BigEndian_value (a b : bytes) :
  List.length a = List.length b ->
  compare_bytes a b = (BigEndian_value a ?= BigEndian_value b).
Proof.
  revert b. induction a as [|x a IH]; intros [|y b] Hlen; simpl in Hlen;
    try discriminate.
  - reflexivity.
  - injection Hlen as Hlen. simpl compare_bytes. simpl BigEndian_value.
    rewrite <- Hlen.
    pose proof (BigEndian_value_bound a) as Ha.
    pose proof (BigEndian_value_bound b) as Hb. rewrite <- Hlen in Hb.
    set (P := 256 ^ Z.of_nat (List.length a)) in *.
    destruct (Z.compare_spec (Z_of_byte x) (Z_of_byte y)) as [E|L|G].
    + rewrite E, IH by assumption.
      destruct (Z.compare_spec (BigEndian_value a) (BigEndian_value b));
        symmetry; [apply Z.compare_eq_iff | apply Z.compare_lt_iff
                  | apply Z.compare_gt_iff]; lia.
    + symmetry. apply Z.compare_lt_iff. nia.
    + symmetry. apply Z.compare_gt_iff. nia.
Qed.

Lemma BigEndian_Store_order (n : nat) (a b : Z) :
  0 <= a -> a < b -> b < 256 ^ Z.of_nat n ->
  compare_bytes (BigEndian_Store n a) (BigEndian_Store n b) = Lt.
Proof.
  intros H0 Hab Hb.
  rewrite compare_bytes_BigEndian_value
    by now rewrite !BigEndian_Store_length.
  rewrite !BigEndian_value_Store_small by lia.
  now apply Z.compare_lt_iff.
Qed.

(** ** Zero-encoded strings *)

Lemma zero_encode_byte_decode (c : byte) (tail : bytes) (s rest : bytes) :
  DecodeZeroEncodedStr tail = Ok (s, rest) ->
  DecodeZeroEncodedStr (zero_encode_byte c ++ tail) = Ok (c :: s, rest).
Proof.
  intros Htail. unfold zero_encode_byte.
  destruct (Byte.eqb c x00) eqn:E.
  - apply Byte.byte_dec_bl in E. subst c.
    cbn [app]. cbn [DecodeZeroEncodedStr]. cbn [Byte.eqb Byte.to_N N.eqb Pos.eqb].
    now rewrite Htail.
  - cbn [app]. cbn [DecodeZeroEncodedStr]. now rewrite E, Htail.
Qed.

(** Decoding stops right after the terminator, whatever follows it. *)
Lemma DecodeZeroEncodedStr_encoded (s rest : bytes) :
  DecodeZeroEncodedStr (flat_map zero_encode_byte s ++ [x00; x00] ++ rest)
  = Ok (s, rest).
Proof.
  induction s as [|c s IH].
  - reflexivity.
  - cbn [flat_map]. rewrite <- app_assoc.
    now apply zero_encode_byte_decode.
Qed.

Lemma ZeroEncodeStr_unfold (s : bytes) :
  ZeroEncodeStr s = flat_map zero_encode_byte s ++ [x00; x00].
Proof. reflexivity. Qed.

Lemma ZeroEncodeAndAppendStrToKey_app (s dest : bytes) :
  ZeroEncodeAndAppendStrToKey s dest = dest ++ ZeroEncodeStr s.
Proof.
  unfold ZeroEncodeStr, ZeroEncodeAndAppendStrToKey, TerminateZeroEncodedKeyStr,
    AppendZeroEncodedStrToKey, Buffer_append.
  now rewrite app_nil_l, app_assoc.
Qed.

(** C7.  Whatever the string [s] (zero bytes included) and the key built so
    far: [ZeroEncodeAndAppendStrToKey] appends the encoding of [s] and its
    terminator; decoding those bytes gives [s] back and leaves nothing of the
    slice, so that all of it has been consumed; and the checked decoder
    agrees.  In particular "a\x00b" encodes to "a\x00\x01b\x00\x00", which
    decodes to "a\x00b" with nothing left. *)
Theorem zero_encoding_round_trip :
  (forall s dest : bytes,
      ZeroEncodeAndAppendStrToKey s dest = dest ++ ZeroEncodeStr s
      /\ ZeroEncodeStr s
         = TerminateZeroEncodedKeyStr (AppendZeroEncodedStrToKey s [])
      /\ DecodeZeroEncodedStr (ZeroEncodeStr s) = Ok (s, [])
      /\ consumed (ZeroEncodeStr s) [] = List.length (ZeroEncodeStr s)
      /\ DecodeZeroEncodedStr_exact (ZeroEncodeStr s) = Ok s)
  /\ ZeroEncodeStr [x61; x00; x62] = [x61; x00; x01; x62; x00; x00]
  /\ DecodeZeroEncodedStr [x61; x00; x01; x62; x00; x00]
     = Ok ([x61; x00; x62], []).
Proof.
  split; [|split; reflexivity].
  intros s dest.
  assert (DecodeZeroEncodedStr (ZeroEncodeStr s) = Ok (s, [])) as Hdec.
  { rewrite ZeroEncodeStr_unfold.
    rewrite <- (app_nil_r [x00; x00]). apply DecodeZeroEncodedStr_encoded. }
  repeat split.
  - apply ZeroEncodeAndAppendStrToKey_app.
  - exact Hdec.
  - unfold consumed. cbn [List.length]. apply Nat.sub_0_r.
  - unfold DecodeZeroEncodedStr_exact. now rewrite Hdec.
Qed.

(** C9.  For a value that fits the width, [AppendUInt16ToKey],
    [AppendUInt32ToKey] and [AppendUInt64ToKey] leave the bytes already in
    the buffer in place and append 2, 4 and 8 bytes which, read most
    significant byte first, denote the value.  For two values [a < b] that fit
    the width, the bytes appended for [a] sort before those appended for [b],
    and so do the two keys when both are appended to the same buffer. *)
Theorem AppendUIntToKey_big_endian (val a b : Z) (dest : bytes) :
  0 <= val -> 0 <= a -> a < b ->
  (val < 2 ^ 16 ->
   AppendUInt16ToKey val dest = dest ++ BigEndian_Store16 val
   /\ List.length (BigEndian_Store16 val) = 2%nat
   /\ BigEndian_value (BigEndian_Store16 val) = val)
  /\ (val < 2 ^ 32 ->
      AppendUInt32ToKey val dest = dest ++ BigEndian_Store32 val
      /\ List.length (BigEndian_Store32 val) = 4%nat
      /\ BigEndian_value (BigEndian_Store32 val) = val)
  /\ (val < 2 ^ 64 ->
      AppendUInt64ToKey val dest = dest ++ BigEndian_Store64 val
      /\ List.length (BigEndian_Store64 val) = 8%nat
      /\ BigEndian_value (BigEndian_Store64 val) = val)
  /\ (b < 2 ^ 16 ->
      compare_bytes (BigEndian_Store16 a) (BigEndian_Store16 b) = Lt
      /\ compare_bytes (AppendUInt16ToKey a dest) (AppendUInt16ToKey b dest)
         = Lt)
  /\ (b < 2 ^ 32 ->
      compare_bytes (BigEndian_Store32 a) (BigEndian_Store32 b) = Lt
      /\ compare_bytes (AppendUInt32ToKey a dest) (AppendUInt32ToKey b dest)
         = Lt)
  /\ (b < 2 ^ 64 ->
      compare_bytes (BigEndian_Store64 a) (BigEndian_Store64 b) = Lt
      /\ compare_bytes (AppendUInt64ToKey a dest) (AppendUInt64ToKey b dest)
         = Lt).
Proof.
  intros Hval Ha Hab.
  unfold AppendUInt16ToKey, AppendUInt32ToKey, AppendUInt64ToKey,
    BigEndian_Store16, BigEndian_Store32, BigEndian_Store64, Buffer_append.
  cbv zeta.
  repeat apply conj; intros Hlt;
    try (repeat apply conj;
         [ reflexivity
         | apply BigEndian_Store_length
         | apply BigEndian_value_Store_small; split; [exact Hval|];
           eapply Z.lt_le_trans; [exact Hlt | now vm_compute] ]);
    (split; [|rewrite compare_bytes_app]);
    (apply BigEndian_Store_order; [exact Ha | exact Hab |];
     eapply Z.lt_le_trans; [exact Hlt | now vm_compute]).
Qed.

(** ** Inverting an encoded DocHybridTime *)












(** Complementing keeps a sequence before its extensions: this is why the
    order of suffixes is reversed only if none is a prefix of another. *)
Lemma compare_bytes_invert_prefix (a b : bytes) :
  starts_with a b = true ->
  compare_bytes (invert_bytes a) (invert_bytes b) = compare_bytes a b.
Proof.
  revert b. induction a as [|x a IH]; intros [|y b] Hpre; cbn in *;
    try reflexivity; try discriminate.
  apply andb_true_iff in Hpre as [Hxy Hpre].
  apply Byte.byte_dec_bl in Hxy. subst y.
  rewrite !Z.compare_refl. now apply IH.
Qed.






Lemma AppendUIntToKey_big_endian_witness :
  (AppendUInt16ToKey 258 [x21] = [x21; x01; x02]
   /\ List.length (BigEndian_Store16 258) = 2%nat
   /\ BigEndian_value (BigEndian_Store16 258) = 258)
  /\ (compare_bytes (BigEndian_Store16 255) (BigEndian_Store16 256) = Lt
      /\ compare_bytes (AppendUInt16ToKey 255 [x21])
                       (AppendUInt16ToKey 256 [x21]) = Lt)
  /\ (compare_bytes (BigEndian_Store32 255) (BigEndian_Store32 256) = Lt
      /\ compare_bytes (AppendUInt32ToKey 255 [x21])
                       (AppendUInt32ToKey 256 [x21]) = Lt)
  /\ (compare_bytes (BigEndian_Store64 255) (BigEndian_Store64 256) = Lt
      /\ compare_bytes (AppendUInt64ToKey 255 [x21])
                       (AppendUInt64ToKey 256 [x21]) = Lt).
Proof.
  destruct (AppendUIntToKey_big_endian 258 255 256 [x21]
              ltac:(lia) ltac:(lia) ltac:(lia))
    as (V16 & _ & _ & O16 & O32 & O64).
  split; [exact (V16 ltac:(lia))|].
  split; [exact (O16 ltac:(lia))|].
  split; [exact (O32 ltac:(lia)) | exact (O64 ltac:(lia))].
Defined.

(** ** Keys made of several fields *)

Lemma Z_of_byte_nonzero (c : byte) :
  Byte.eqb c x00 = false -> 0 < Z_of_byte c.
Proof.
  intros E. pose proof (Z_of_byte_range c) as R.
  destruct (Z.eq_dec (Z_of_byte c) 0) as [Z0|]; [|lia].
  assert (c = x00) by (apply Z_of_byte_inj; rewrite Z0; reflexivity).
  subst c. discriminate E.
Qed.

Lemma compare_bytes_cons_lt (x y : byte) (a b : bytes) :
  Z_of_byte x < Z_of_byte y -> compare_bytes (x :: a) (y :: b) = Lt.
Proof.
  intros H. cbn [compare_bytes].
  now rewrite (proj2 (Z.compare_lt_iff _ _) H).
Qed.

Lemma compare_bytes_cons_gt (x y : byte) (a b : bytes) :
  Z_of_byte y < Z_of_byte x -> compare_bytes (x :: a) (y :: b) = Gt.
Proof.
  intros H. cbn [compare_bytes].
  now rewrite (proj2 (Z.compare_gt_iff _ _) H).
Qed.

(** The first byte of an encoded byte is the byte itself. *)
Lemma zero_encode_byte_head (c : byte) :
  exists tail, zero_encode_byte c = c :: tail.
Proof.
  unfold zero_encode_byte. destruct (Byte.eqb c x00) eqn:E.
  - apply Byte.byte_dec_bl in E. subst c. now exists [x01].
  - now exists [].
Qed.

(** A terminated field sorts before any terminated field that it is a
    strict prefix of, whatever follows the two. *)
Lemma terminator_before_encoded_byte (c : byte) (t1 t2 : bytes) :
  compare_bytes ([x00; x00] ++ t1) (zero_encode_byte c ++ t2) = Lt
  /\ compare_bytes (zero_encode_byte c ++ t2) ([x00; x00] ++ t1) = Gt.
Proof.
  unfold zero_encode_byte. destruct (Byte.eqb c x00) eqn:E.
  - split; reflexivity.
  - apply Z_of_byte_nonzero in E. split.
    + apply compare_bytes_cons_lt. exact E.
    + apply compare_bytes_cons_gt. exact E.
Qed.

(** Two keys that start with a terminated zero-encoded field compare by the
    fields first and by what follows them next. *)
Lemma compare_bytes_zero_encoded (s1 s2 t1 t2 : bytes) :
  compare_bytes (ZeroEncodeStr s1 ++ t1) (ZeroEncodeStr s2 ++ t2)
  = match compare_bytes s1 s2 with
    | Eq => compare_bytes t1 t2
    | c => c
    end.
Proof.
  rewrite !ZeroEncodeStr_unfold, <- !app_assoc.
  revert s2. induction s1 as [|c1 s1 IH]; intros [|c2 s2].
  - cbn [flat_map app]. apply (compare_bytes_app [x00; x00]).
  - cbn [flat_map compare_bytes]. rewrite <- app_assoc.
    apply terminator_before_encoded_byte.
  - cbn [flat_map compare_bytes]. rewrite <- app_assoc.
    apply terminator_before_encoded_byte.
  - cbn [flat_map compare_bytes]. rewrite <- !app_assoc.
    destruct (Z.compare_spec (Z_of_byte c1) (Z_of_byte c2)) as [E|L|G].
    + apply Z_of_byte_inj in E. subst c2.
      rewrite compare_bytes_app. apply IH.
    + destruct (zero_encode_byte_head c1) as [r1 ->].
      destruct (zero_encode_byte_head c2) as [r2 ->].
      cbn [app]. now apply compare_bytes_cons_lt.
    + destruct (zero_encode_byte_head c1) as [r1 ->].
      destruct (zero_encode_byte_head c2) as [r2 ->].
      cbn [app]. now apply compare_bytes_cons_gt.
Qed.

(** X1.  The zero encoding keeps the order of strings: two encoded strings,
    appended to the same key or on their own, compare as the strings do. *)
Theorem ZeroEncodeStr_keeps_order (s1 s2 dest : bytes) :
  compare_bytes (ZeroEncodeStr s1) (ZeroEncodeStr s2) = compare_bytes s1 s2
  /\ compare_bytes (ZeroEncodeAndAppendStrToKey s1 dest)
                   (ZeroEncodeAndAppendStrToKey s2 dest)
     = compare_bytes s1 s2.
Proof.
  assert (compare_bytes (ZeroEncodeStr s1) (ZeroEncodeStr s2)
          = compare_bytes s1 s2) as H.
  { rewrite <- (app_nil_r (ZeroEncodeStr s1)), <- (app_nil_r (ZeroEncodeStr s2)).
    rewrite compare_bytes_zero_encoded. now destruct (compare_bytes s1 s2). }
  split; [exact H|].
  now rewrite !ZeroEncodeAndAppendStrToKey_app, compare_bytes_app.
Qed.

(** X2.  A key made of two string fields sorts as the pair of strings: by
    the first field, and by the second when the first fields are equal. *)
Theorem two_string_fields_order (s1 u1 s2 u2 dest : bytes) :
  compare_bytes
    (ZeroEncodeAndAppendStrToKey u1 (ZeroEncodeAndAppendStrToKey s1 dest))
    (ZeroEncodeAndAppendStrToKey u2 (ZeroEncodeAndAppendStrToKey s2 dest))
  = match compare_bytes s1 s2 with
    | Eq => compare_bytes u1 u2
    | c => c
    end.
Proof.
  rewrite !ZeroEncodeAndAppendStrToKey_app, <- !app_assoc, compare_bytes_app.
  rewrite compare_bytes_zero_encoded.
  destruct (compare_bytes s1 s2); try reflexivity.
  apply (ZeroEncodeStr_keeps_order u1 u2 []).
Qed.

(** X3.  A key made of a string field followed by a 64-bit integer sorts as
    the pair: by the string, and by the number when the strings are equal. *)
Theorem string_then_uint64_order (s1 s2 dest : bytes) (n1 n2 : Z) :
  0 <= n1 < 2 ^ 64 ->
  0 <= n2 < 2 ^ 64 ->
  compare_bytes
    (AppendUInt64ToKey n1 (ZeroEncodeAndAppendStrToKey s1 dest))
    (AppendUInt64ToKey n2 (ZeroEncodeAndAppendStrToKey s2 dest))
  = match compare_bytes s1 s2 with
    | Eq => (n1 ?= n2)
    | c => c
    end.
Proof.
  intros H1 H2.
  unfold AppendUInt64ToKey, Buffer_append. cbv zeta.
  rewrite !ZeroEncodeAndAppendStrToKey_app, <- !app_assoc, compare_bytes_app.
  rewrite compare_bytes_zero_encoded.
  destruct (compare_bytes s1 s2); try reflexivity.
  unfold BigEndian_Store64.
  rewrite compare_bytes_BigEndian_value by now rewrite !BigEndian_Store_length.
  now rewrite !BigEndian_value_Store_small by (cbn; lia).
Qed.

(** X4.  A key that starts with an encoded string is parsed without
    ambiguity: decoding gives the string and leaves exactly what follows
    it, having consumed the encoded string; two such keys are equal only if
    their strings and their remainders are; and the decoder that wants the
    whole input rejects a key with a remainder. *)
Theorem DecodeZeroEncodedStr_first_field (s rest : bytes) :
  DecodeZeroEncodedStr (ZeroEncodeAndAppendStrToKey s [] ++ rest)
  = Ok (s, rest)
  /\ consumed (ZeroEncodeAndAppendStrToKey s [] ++ rest) rest
     = List.length (ZeroEncodeStr s)
  /\ (forall s' rest',
         ZeroEncodeStr s ++ rest = ZeroEncodeStr s' ++ rest' ->
         s = s' /\ rest = rest')
  /\ (rest <> [] ->
      DecodeZeroEncodedStr_exact (ZeroEncodeStr s ++ rest)
      = Err (TrailingBytes (List.length rest))).
Proof.
  assert (forall s0 rest0,
             DecodeZeroEncodedStr (ZeroEncodeStr s0 ++ rest0) = Ok (s0, rest0))
    as Hdec.
  { intros s0 rest0. rewrite ZeroEncodeStr_unfold, <- app_assoc.
    apply DecodeZeroEncodedStr_encoded. }
  rewrite ZeroEncodeAndAppendStrToKey_app, app_nil_l.
  repeat split.
  - apply Hdec.
  - unfold consumed. rewrite length_app. lia.
  - pose proof (Hdec s rest) as D. rewrite H, Hdec in D. now inversion D.
  - pose proof (Hdec s rest) as D. rewrite H, Hdec in D. now inversion D.
  - intros Hne. unfold DecodeZeroEncodedStr_exact. rewrite Hdec.
    destruct rest; [contradiction | reflexivity].
Qed.

(** X5.  The word buffer for an inverted hybrid time is the smallest whole
    number of words that holds an encoded hybrid time and its value type
    byte. *)
Theorem DocHybridTimeWordBuffer_smallest (kMax : nat) :
  (kMax + 1 <= DocHybridTimeWordBuffer_bytes kMax)%nat
  /\ (DocHybridTimeWordBuffer_bytes kMax < kMax + 1 + sizeof_size_t)%nat
  /\ DocHybridTimeWordBuffer_bytes kMax
     = (kMaxWordsPerEncodedHybridTimeWithValueType kMax * sizeof_size_t)%nat.
Proof.
  unfold DocHybridTimeWordBuffer_bytes,
    kMaxWordsPerEncodedHybridTimeWithValueType, sizeof_size_t.
  pose proof (Nat.div_mod_eq (kMax + 1 + 8 - 1) 8) as E.
  pose proof (Nat.mod_upper_bound (kMax + 1 + 8 - 1) 8 ltac:(lia)) as U.
  repeat split; lia.
Qed.

(** X14.  The encoding of a string is as long as the string, plus one byte
    for each zero byte in it, plus the [kEncodedKeyStrTerminatorSize] bytes
    of the terminator; a string without zero bytes is copied as it is. *)
Theorem ZeroEncodeStr_length (s : bytes) :
  Z.of_nat (List.length (ZeroEncodeStr s))
  = Z.of_nat (List.length s)
    + Z.of_nat (List.length (filter (fun b => Byte.eqb b x00) s))
    + kEncodedKeyStrTerminatorSize
  /\ (filter (fun b => Byte.eqb b x00) s = [] ->
      ZeroEncodeStr s = s ++ [x00; x00]).
Proof.
  rewrite ZeroEncodeStr_unfold. unfold kEncodedKeyStrTerminatorSize. split.
  - rewrite length_app. cbn [List.length].
    induction s as [|c s IH]; [reflexivity|].
    cbn [flat_map filter]. rewrite length_app. unfold zero_encode_byte at 1.
    destruct (Byte.eqb c x00); cbn [List.length] in *; lia.
  - intros Hnone. f_equal.
    induction s as [|c s IH]; [reflexivity|].
    cbn [flat_map filter] in *. unfold zero_encode_byte at 1.
    destruct (Byte.eqb c x00); [discriminate Hnone|].
    cbn [app]. f_equal. now apply IH.
Qed.

Lemma ZeroEncodeStr_length_witness :
  ZeroEncodeStr [x61; x62] = [x61; x62] ++ [x00; x00].
Proof.
  exact (proj2 (ZeroEncodeStr_length [x61; x62]) eq_refl).
Defined.

Lemma string_then_uint64_order_witness :
  compare_bytes
    (AppendUInt64ToKey 7 (ZeroEncodeAndAppendStrToKey [x61; x00] [x21]))
    (AppendUInt64ToKey 300 (ZeroEncodeAndAppendStrToKey [x61; x00] [x21]))
  = Lt.
Proof.
  exact (string_then_uint64_order [x61; x00] [x61; x00] [x21] 7 300
           ltac:(cbn; lia) ltac:(cbn; lia)).
Defined.

Lemma DecodeZeroEncodedStr_first_field_witness :
  DecodeZeroEncodedStr_exact (ZeroEncodeStr [x61; x00] ++ [x07])
  = Err (TrailingBytes 1).
Proof.
  exact (proj2 (proj2 (proj2
           (DecodeZeroEncodedStr_first_field [x61; x00] [x07])))
           ltac:(discriminate)).
Defined.

End DocKvUtilFacts.

(* ===================================================================== *)
(** * Facts about operation.cc                                            *)
(* ===================================================================== *)

Module OperationFacts.
Import Tablet.
Local Open Scope string_scope.
Local Open Scope list_scope.

(** Unfolds the execution monad and the methods built from it. *)
Ltac unfold_methods :=
  cbv [Replicated Aborted Replicated_was_pending Aborted_was_pending
       AddedToLeader AddedToFollower CompleteWithStatus set_hybrid_time
       set_consensus_round WriteHybridTime
       LOG_WITH_PREFIX LogPrefix LOG_FATAL DCHECK tablet tablet_safe
       complete_compare_exchange_strong hybrid_time hybrid_time_even_if_unset
       op_id on_mvcc_manager on_clock
       UpdateRequestFromConsensusRound AddedAsPending RemovedFromPending
       Release bind ret emit this update when terminate].

Ltac open_world w :=
  let c := fresh "complete" in
  let cb := fresh "clbk" in
  let r := fresh "round" in
  let ht := fresh "ht" in
  let id := fresh "id" in
  let tb := fresh "tb" in
  let ev := fresh "ev" in
  destruct w as [[c cb r ht id] tb ev]; cbn [self tablet_ events complete_
    completion_clbk_ consensus_round_ hybrid_time_ op_id_] in *.

Section Facts.

Context {collaborators : Collaborators}.

(** ** Resolving the owning tablet *)

(** C8.  Resolving the owner of an operation after the tablet has been
    destroyed ends the process (after a FATAL log line) when done with
    [tablet()], and returns an [IllegalState] status, the world untouched,
    when done with [tablet_safe()]; while the tablet is alive both return
    it. *)
Theorem tablet_and_tablet_safe (w : World) :
  match tablet_ w with
  | None =>
      tablet w =
        (Terminated (FatalLog destroyed_text),
         MkWorld (self w) None
                 (events w ++ [LogMessage FATAL "" destroyed_text None]))
      /\ tablet_safe w =
           (Returned (inl (Status_Error kIllegalState destroyed_text)), w)
  | Some t =>
      tablet w = (Returned t, w) /\ tablet_safe w = (Returned (inr t), w)
  end.
Proof.
  unfold tablet, tablet_safe.
  destruct w as [o [t|] ev]; cbn [tablet_]; split; reflexivity.
Qed.

(** ** Completion *)

Lemma CompleteWithStatus_first (w : World) (status : Status) :
  complete_ (self w) = false ->
  CompleteWithStatus status w =
    (Returned tt,
     MkWorld (set_complete_ true (self w)) (tablet_ w)
             (events w ++ completion_events (self w) status)).
Proof.
  intros Hc. open_world w. subst. unfold_methods. unfold completion_events.
  cbn. destruct clbk; cbn; [reflexivity | now rewrite app_nil_r].
Qed.

Lemma CompleteWithStatus_again (w : World) (t : Tablet) (status : Status) :
  complete_ (self w) = true ->
  tablet_ w = Some t ->
  CompleteWithStatus status w =
    (Returned tt,
     MkWorld (self w) (tablet_ w)
             (events w ++
                [LogMessage DFATAL ("T " ++ tablet_id t ++ ": ")%string
                            called_twice_text (Some status)])).
Proof.
  intros Hc Ht. open_world w. subst. unfold_methods. cbn. reflexivity.
Qed.

(** Once the tablet is gone, a second completion ends the process while it
    builds the log prefix; the callback is not invoked either. *)
Lemma CompleteWithStatus_again_destroyed (w : World) (status : Status) :
  complete_ (self w) = true ->
  tablet_ w = None ->
  CompleteWithStatus status w =
    (Terminated (FatalLog destroyed_text),
     MkWorld (self w) None
             (events w ++ [LogMessage FATAL "" destroyed_text None])).
Proof.
  intros Hc Ht. open_world w. subst. unfold_methods. cbn. reflexivity.
Qed.

(** C1 (as amended).  On an operation that is not yet complete and has a
    callback registered, the first [CompleteWithStatus] invokes the callback
    with its status and sets the flag.  A second one finds the flag set and
    never invokes the callback, so that over both calls the callback runs
    exactly once, with the first status.  While the tablet is alive the
    second call logs a DFATAL line and returns; once the tablet has been
    destroyed it ends the process while computing the log prefix. *)
Theorem CompleteWithStatus_twice
    (w : World) (clbk : OperationCompletionCallback) (s1 s2 : Status) :
  complete_ (self w) = false ->
  completion_clbk_ (self w) = Some clbk ->
  exists w1,
    CompleteWithStatus s1 w = (Returned tt, w1)
    /\ events w1 = events w ++ [CompletionCallback clbk s1]
    /\ complete_ (self w1) = true
    /\ exists outcome w2,
         CompleteWithStatus s2 w1 = (outcome, w2)
         /\ filter is_completion_event (events w2)
            = filter is_completion_event (events w)
                ++ [CompletionCallback clbk s1]
         /\ self w2 = self w1
         /\ match tablet_ w with
            | Some t =>
                outcome = Returned tt
                /\ events w2 =
                     events w1
                       ++ [LogMessage DFATAL ("T " ++ tablet_id t ++ ": ")%string
                                      called_twice_text (Some s2)]
            | None => outcome = Terminated (FatalLog destroyed_text)
            end.
Proof.
  intros Hc Hcb.
  eexists. rewrite (CompleteWithStatus_first w s1 Hc).
  unfold completion_events. rewrite Hcb.
  split; [reflexivity|]. cbn [events self].
  split; [reflexivity|]. split; [reflexivity|].
  destruct (tablet_ w) as [t|] eqn:Ht.
  - eexists _, _. split.
    + apply (CompleteWithStatus_again _ t); reflexivity.
    + cbn [events self tablet_]. rewrite !filter_app. cbn.
      rewrite app_nil_r. repeat split; reflexivity.
  - eexists _, _. split.
    + apply CompleteWithStatus_again_destroyed; reflexivity.
    + cbn [events self tablet_]. rewrite !filter_app. cbn.
      rewrite app_nil_r. repeat split; reflexivity.
Qed.

(** ** Replication *)

(** C2.  When the apply hook [DoReplicated] returns an error,
    [Replicated] returns that error and has done nothing but call the hook:
    the MVCC manager is not told anything and keeps its state, the operation
    is not removed from the pending ones, [Release] is not called, the
    completion flag keeps its value and the callback is not invoked. *)
Theorem Replicated_apply_error
    {kind : OperationKind} (w : World) (leader_term : Z) (was_pending : bool)
    (code : StatusCode) (msg : string) (complete_status : Status) :
  DoReplicated leader_term Status_OK
    = (Status_Error code msg, complete_status) ->
  Replicated leader_term was_pending w =
    (Returned (Status_Error code msg),
     MkWorld (self w) (tablet_ w) (events w ++ [CallDoReplicated leader_term])).
Proof.
  intros Hhook. unfold Replicated, bind, emit. cbn.
  rewrite Hhook. reflexivity.
Qed.

(** ** Leader and follower registration *)

Lemma AddedToLeader_run
    {kind : OperationKind} (w : World) (t : Tablet) (round : ConsensusRound)
    (op_id committed_op_id : OpId) :
  tablet_ w = Some t ->
  consensus_round_ (self w) = Some round ->
  AddedToLeader op_id committed_op_id w =
    let ht := if use_mvcc then fst (AddLeaderPending op_id (mvcc_manager t))
              else fst (Now (clock t)) in
    (Returned tt,
     MkWorld
       (MkOperation (complete_ (self w)) (completion_clbk_ (self w))
          (Some (MkConsensusRound
                   (MkReplicateMsg (Some op_id) (Some committed_op_id)
                                   (Some (ToUint64 ht))
                                   (Some (monotonic_counter t)))))
          ht op_id)
       (Some (if use_mvcc
              then MkTablet (tablet_id t)
                            (snd (AddLeaderPending op_id (mvcc_manager t)))
                            (clock t) (monotonic_counter t)
              else MkTablet (tablet_id t) (mvcc_manager t)
                            (snd (Now (clock t))) (monotonic_counter t)))
       (events w
          ++ [if use_mvcc then MvccAddLeaderPending op_id ht else ClockNow ht;
              CallAddedAsPending])).
Proof.
  intros Ht Hr. open_world w. subst. unfold_methods.
  destruct use_mvcc; cbn.
  - destruct (AddLeaderPending op_id (mvcc_manager t)) as [ht' mvcc] eqn:E.
    cbn. rewrite <- app_assoc. reflexivity.
  - destruct (Now (clock t)) as [ht' c] eqn:E.
    cbn. rewrite <- app_assoc. reflexivity.
Qed.

(** C4 (as amended).  For an operation whose tablet is alive and which is
    bound to a round, whatever its type, [AddedToLeader op_id
    committed_op_id] returns, and afterwards: [op_id_] is [op_id], which is
    also the id the round now carries; the replicate message of the round
    holds that id, the committed id, the hybrid time of the operation and
    the tablet's monotonic counter; the flag and the callback are as they
    were; and the last thing done is the [AddedAsPending] hook.  The hybrid
    time is what the MVCC manager's [AddLeaderPending op_id] returned, its
    only call, when the type uses MVCC; it is what the tablet's clock
    returned, the MVCC manager left alone, when the type does not. *)
Theorem AddedToLeader_assigns
    {kind : OperationKind} (w : World) (t : Tablet) (round : ConsensusRound)
    (op_id committed_op_id : OpId) :
  tablet_ w = Some t ->
  consensus_round_ (self w) = Some round ->
  exists w' round' hybrid_time,
    AddedToLeader op_id committed_op_id w = (Returned tt, w')
    /\ op_id_ (self w') = op_id
    /\ hybrid_time_ (self w') = hybrid_time
    /\ consensus_round_ (self w') = Some round'
    /\ ConsensusRound_id round' = op_id
    /\ replicate_msg round' =
         MkReplicateMsg (Some op_id) (Some committed_op_id)
                        (Some (ToUint64 hybrid_time))
                        (Some (monotonic_counter t))
    /\ complete_ (self w') = complete_ (self w)
    /\ completion_clbk_ (self w') = completion_clbk_ (self w)
    /\ (use_mvcc = true ->
        hybrid_time = fst (AddLeaderPending op_id (mvcc_manager t))
        /\ events w' =
             events w
               ++ [MvccAddLeaderPending op_id hybrid_time; CallAddedAsPending]
        /\ tablet_ w' =
             Some (MkTablet (tablet_id t)
                            (snd (AddLeaderPending op_id (mvcc_manager t)))
                            (clock t) (monotonic_counter t)))
    /\ (use_mvcc = false ->
        hybrid_time = fst (Now (clock t))
        /\ events w' =
             events w ++ [ClockNow hybrid_time; CallAddedAsPending]
        /\ tablet_ w' =
             Some (MkTablet (tablet_id t) (mvcc_manager t)
                            (snd (Now (clock t))) (monotonic_counter t))).
Proof.
  intros Ht Hr.
  rewrite (AddedToLeader_run w t round op_id committed_op_id Ht Hr).
  cbv zeta. eexists _, _, _.
  split; [reflexivity|]. cbn [self op_id_ hybrid_time_ consensus_round_
                              complete_ completion_clbk_ events tablet_].
  repeat (split; [reflexivity|]).
  destruct use_mvcc; split; intros H; try discriminate H;
    repeat split; reflexivity.
Qed.

(** ** Abort *)

Lemma Aborted_was_pending_no_mvcc
    {kind : OperationKind} (w : World) (was_pending : bool) :
  use_mvcc = false \/ is_valid (hybrid_time_ (self w)) = false ->
  Aborted_was_pending was_pending w =
    (Returned tt,
     MkWorld (self w) (tablet_ w) (events w ++ pending_events was_pending)).
Proof.
  intros H. open_world w. unfold_methods. unfold pending_events.
  destruct use_mvcc; cbn.
  - destruct H as [H|H]; [discriminate|]. rewrite H.
    destruct was_pending; cbn; [reflexivity | now rewrite app_nil_r].
  - destruct was_pending; cbn; [reflexivity | now rewrite app_nil_r].
Qed.

Lemma Aborted_was_pending_mvcc
    {kind : OperationKind} (w : World) (t : Tablet) (was_pending : bool) :
  use_mvcc = true ->
  is_valid (hybrid_time_ (self w)) = true ->
  tablet_ w = Some t ->
  Aborted_was_pending was_pending w =
    (Returned tt,
     MkWorld (self w)
       (Some (MkTablet (tablet_id t)
                (MvccManager_Aborted (hybrid_time_ (self w)) (op_id_ (self w))
                                     (mvcc_manager t))
                (clock t) (monotonic_counter t)))
       (events w ++ [MvccAborted (hybrid_time_ (self w)) (op_id_ (self w))]
                 ++ pending_events was_pending)).
Proof.
  intros Hm Hv Ht. open_world w. subst. unfold_methods. unfold pending_events.
  rewrite Hm. cbn. rewrite Hv. cbn.
  destruct was_pending; cbn; rewrite <- ?app_assoc; [reflexivity|].
  cbn. reflexivity.
Qed.

Lemma Aborted_unfold
    {kind : OperationKind} (w w1 : World) (status : Status)
    (was_pending : bool) :
  Aborted_was_pending was_pending w = (Returned tt, w1) ->
  Aborted status was_pending w =
    CompleteWithStatus (DoAborted status)
      (MkWorld (self w1) (tablet_ w1)
               (events w1 ++ [CallRelease; CallDoAborted status])).
Proof.
  intros H. unfold Aborted, bind at 1. rewrite H.
  unfold Release, bind, emit. cbn. rewrite <- app_assoc. reflexivity.
Qed.

(** C5 (as amended).  [Aborted status true] on an operation that is not yet
    complete and has a callback registered.  If its type uses MVCC, its
    hybrid time has been assigned and its tablet is alive: the MVCC manager
    gets exactly one [Aborted] call, with that hybrid time and the
    operation's id, then [RemovedFromPending] and [Release] run, and the
    callback is invoked once with [DoAborted status].  If its type does not
    use MVCC, or no hybrid time was assigned: the same without any MVCC
    call. *)
Theorem Aborted_pending
    {kind : OperationKind} (w : World) (clbk : OperationCompletionCallback)
    (status : Status) :
  complete_ (self w) = false ->
  completion_clbk_ (self w) = Some clbk ->
  (use_mvcc = true ->
   is_valid (hybrid_time_ (self w)) = true ->
   forall t, tablet_ w = Some t ->
   Aborted status true w =
     (Returned tt,
      MkWorld (set_complete_ true (self w))
        (Some (MkTablet (tablet_id t)
                 (MvccManager_Aborted (hybrid_time_ (self w))
                                      (op_id_ (self w)) (mvcc_manager t))
                 (clock t) (monotonic_counter t)))
        (events w
           ++ [MvccAborted (hybrid_time_ (self w)) (op_id_ (self w));
               CallRemovedFromPending; CallRelease; CallDoAborted status;
               CompletionCallback clbk (DoAborted status)])))
  /\ (use_mvcc = false \/ is_valid (hybrid_time_ (self w)) = false ->
      Aborted status true w =
        (Returned tt,
         MkWorld (set_complete_ true (self w)) (tablet_ w)
           (events w
              ++ [CallRemovedFromPending; CallRelease; CallDoAborted status;
                  CompletionCallback clbk (DoAborted status)]))).
Proof.
  intros Hc Hcb. split.
  - intros Hm Hv t Ht.
    rewrite (Aborted_unfold w _ status true
               (Aborted_was_pending_mvcc w t true Hm Hv Ht)).
    rewrite CompleteWithStatus_first by exact Hc.
    unfold completion_events. cbn [self tablet_ events]. rewrite Hcb.
    cbn. rewrite <- !app_assoc. reflexivity.
  - intros H.
    rewrite (Aborted_unfold w _ status true
               (Aborted_was_pending_no_mvcc w true H)).
    rewrite CompleteWithStatus_first by exact Hc.
    unfold completion_events. cbn [self tablet_ events]. rewrite Hcb.
    cbn. rewrite <- !app_assoc. reflexivity.
Qed.

(** ** Operation types that do not use MVCC *)

Lemma Replicated_was_pending_no_mvcc
    {kind : OperationKind} (w : World) (was_pending : bool) :
  use_mvcc = false ->
  Replicated_was_pending was_pending w =
    (Returned tt,
     MkWorld (self w) (tablet_ w) (events w ++ pending_events was_pending)).
Proof.
  intros H. open_world w. unfold_methods. unfold pending_events. rewrite H.
  destruct was_pending; cbn; [reflexivity | now rewrite app_nil_r].
Qed.

Ltac split_cases :=
  repeat match goal with
    | _ => progress cbn in *
    | H : (_, _) = (_, _) |- _ => inversion H; clear H; subst
    | H : context [if ?b then _ else _] |- _ => destruct b eqn:?
    | H : context [match ?x with Some _ => _ | None => _ end] |- _ =>
        destruct x eqn:?
    | H : context [let (_, _) := ?x in _] |- _ => destruct x eqn:?
    | |- context [if ?b then _ else _] => destruct b eqn:?
    | |- context [match ?x with Some _ => _ | None => _ end] =>
        destruct x eqn:?
    | _ => discriminate
    end.

Ltac plain_kind_of kind H :=
  destruct kind as [um dr da]; cbn [use_mvcc] in H; subst um;
  cbn [use_mvcc with_use_mvcc DoReplicated DoAborted] in *.

Ltac finish_same_but_mvcc :=
  split_cases; eexists; (split; [reflexivity|]); cbn;
  rewrite ?filter_app; cbn; rewrite ?app_nil_r; auto.

Lemma Replicated_same_but_mvcc
    {kind : OperationKind} (w wm : World) (r : Status) (leader_term : Z)
    (was_pending : bool) :
  use_mvcc = false ->
  Replicated (kind := with_use_mvcc true kind) leader_term was_pending w
    = (Returned r, wm) ->
  exists w',
    Replicated leader_term was_pending w = (Returned r, w')
    /\ same_but_mvcc w' wm.
Proof.
  intros Hm. plain_kind_of kind Hm.
  unfold same_but_mvcc, other_events. open_world w. unfold_methods.
  cbn [use_mvcc with_use_mvcc DoReplicated].
  destruct (dr leader_term Status_OK) as [s cs].
  intros H. finish_same_but_mvcc.
Qed.

Lemma Aborted_same_but_mvcc
    {kind : OperationKind} (w wm : World) (status : Status)
    (was_pending : bool) :
  use_mvcc = false ->
  Aborted (kind := with_use_mvcc true kind) status was_pending w
    = (Returned tt, wm) ->
  exists w',
    Aborted status was_pending w = (Returned tt, w')
    /\ same_but_mvcc w' wm.
Proof.
  intros Hm. plain_kind_of kind Hm.
  unfold same_but_mvcc, other_events. open_world w. unfold_methods.
  cbn [use_mvcc with_use_mvcc DoAborted].
  intros H. finish_same_but_mvcc.
Qed.

Lemma AddedToFollower_same_but_mvcc
    {kind : OperationKind} (w wm : World) :
  use_mvcc = false ->
  AddedToFollower (kind := with_use_mvcc true kind) w = (Returned tt, wm) ->
  exists w',
    AddedToFollower w = (Returned tt, w') /\ same_but_mvcc w' wm.
Proof.
  intros Hm. plain_kind_of kind Hm.
  unfold same_but_mvcc, other_events. open_world w. unfold_methods.
  cbn [use_mvcc with_use_mvcc].
  intros H. finish_same_but_mvcc.
Qed.

(** C10.  For an operation whose type does not use MVCC:
    - [AddedToLeader] (tablet alive, round bound) takes the hybrid time from
      the tablet's clock, [Now()], and does not touch the MVCC manager;
    - [AddedToFollower] only runs the [AddedAsPending] hook;
    - [Replicated], when the apply hook succeeds, and [Aborted], on an
      operation that is not yet complete, remove the operation from the
      pending ones if it was pending, call [Release] and deliver the
      completion, without any MVCC call;
    - whenever one of these three returns for the type with MVCC switched
      on, it returns the same for the type itself, leaving the same object
      and the same events, the MVCC calls apart. *)
Theorem without_mvcc {kind : OperationKind} :
  use_mvcc = false ->
  (forall w t round op_id committed_op_id,
      tablet_ w = Some t ->
      consensus_round_ (self w) = Some round ->
      exists w',
        AddedToLeader op_id committed_op_id w = (Returned tt, w')
        /\ hybrid_time_ (self w') = fst (Now (clock t))
        /\ events w' =
             events w ++ [ClockNow (fst (Now (clock t))); CallAddedAsPending]
        /\ tablet_ w' =
             Some (MkTablet (tablet_id t) (mvcc_manager t)
                            (snd (Now (clock t))) (monotonic_counter t)))
  /\ (forall w,
         AddedToFollower w =
           (Returned tt,
            MkWorld (self w) (tablet_ w) (events w ++ [CallAddedAsPending])))
  /\ (forall w leader_term was_pending,
         ok (fst (DoReplicated leader_term Status_OK)) = true ->
         complete_ (self w) = false ->
         Replicated leader_term was_pending w =
           (Returned Status_OK,
            MkWorld (set_complete_ true (self w)) (tablet_ w)
              (events w
                 ++ [CallDoReplicated leader_term]
                 ++ pending_events was_pending
                 ++ [CallRelease]
                 ++ completion_events (self w)
                      (snd (DoReplicated leader_term Status_OK)))))
  /\ (forall w status was_pending,
         complete_ (self w) = false ->
         Aborted status was_pending w =
           (Returned tt,
            MkWorld (set_complete_ true (self w)) (tablet_ w)
              (events w
                 ++ pending_events was_pending
                 ++ [CallRelease; CallDoAborted status]
                 ++ completion_events (self w) (DoAborted status))))
  /\ (forall w wm,
         AddedToFollower (kind := with_use_mvcc true kind) w
           = (Returned tt, wm) ->
         exists w', AddedToFollower w = (Returned tt, w')
                    /\ same_but_mvcc w' wm)
  /\ (forall w wm r leader_term was_pending,
         Replicated (kind := with_use_mvcc true kind) leader_term was_pending w
           = (Returned r, wm) ->
         exists w', Replicated leader_term was_pending w = (Returned r, w')
                    /\ same_but_mvcc w' wm)
  /\ (forall w wm status was_pending,
         Aborted (kind := with_use_mvcc true kind) status was_pending w
           = (Returned tt, wm) ->
         exists w', Aborted status was_pending w = (Returned tt, w')
                    /\ same_but_mvcc w' wm).
Proof.
  intros Hm. repeat apply conj.
  - intros w t round op_id committed_op_id Ht Hr.
    rewrite (AddedToLeader_run w t round op_id committed_op_id Ht Hr), Hm.
    cbv zeta. eexists. repeat split; reflexivity.
  - intros w. unfold AddedToFollower, when, bind. rewrite Hm. reflexivity.
  - intros w leader_term was_pending Hok Hc.
    unfold Replicated. unfold bind at 1. unfold emit at 1.
    destruct (DoReplicated leader_term Status_OK) as [s cs]. cbn in Hok.
    rewrite Hok. cbn [negb]. unfold bind at 1.
    rewrite Replicated_was_pending_no_mvcc by exact Hm.
    unfold Release, bind, emit. cbn [self tablet_ events].
    rewrite CompleteWithStatus_first by exact Hc.
    cbn [self tablet_ events snd]. unfold ret.
    rewrite <- !app_assoc. reflexivity.
  - intros w status was_pending Hc.
    rewrite (Aborted_unfold w _ status was_pending
               (Aborted_was_pending_no_mvcc w was_pending (or_introl Hm))).
    rewrite CompleteWithStatus_first by exact Hc.
    cbn [self tablet_ events]. rewrite <- !app_assoc. reflexivity.
  - intros w wm. now apply AddedToFollower_same_but_mvcc.
  - intros w wm r leader_term was_pending.
    now apply Replicated_same_but_mvcc.
  - intros w wm status was_pending. now apply Aborted_same_but_mvcc.
Qed.

End Facts.

(** ** Concrete runs *)

(** C1 as stated fails once the tablet is gone: the first completion of a
    fresh operation delivers the callback, the second ends the process
    instead of logging a DFATAL line and returning. *)
Lemma CompleteWithStatus_twice_tablet_destroyed :
  let w0 := @MkWorld counting_collaborators fresh_operation None [] in
  exists w1 w2,
    CompleteWithStatus Status_OK w0 = (Returned tt, w1)
    /\ CompleteWithStatus (Status_Error kAborted "again") w1
       = (Terminated (FatalLog destroyed_text), w2)
    /\ events w2 = [CompletionCallback 0 Status_OK;
                    LogMessage FATAL "" destroyed_text None].
Proof.
  cbv zeta. eexists _, _. repeat split; reflexivity.
Qed.

Lemma CompleteWithStatus_twice_witness :
  exists w1,
    CompleteWithStatus Status_OK example_world = (Returned tt, w1)
    /\ events w1 = [CompletionCallback 0 Status_OK]
    /\ complete_ (self w1) = true
    /\ exists outcome w2,
         CompleteWithStatus (Status_Error kAborted "again") w1 = (outcome, w2)
         /\ filter is_completion_event (events w2)
            = [CompletionCallback 0 Status_OK]
         /\ self w2 = self w1
         /\ outcome = Returned tt
         /\ events w2 =
              events w1
                ++ [LogMessage DFATAL "T t1: " called_twice_text
                               (Some (Status_Error kAborted "again"))].
Proof.
  exact (CompleteWithStatus_twice (collaborators := counting_collaborators)
           example_world 0%nat Status_OK (Status_Error kAborted "again")
           eq_refl eq_refl).
Defined.

Lemma Replicated_apply_error_witness :
  Replicated (kind := failing_kind) 3 true example_world =
    (Returned (Status_Error kRuntimeError "apply failed"),
     @MkWorld counting_collaborators fresh_operation (Some example_tablet)
              [CallDoReplicated 3]).
Proof.
  exact (Replicated_apply_error (collaborators := counting_collaborators)
           (kind := failing_kind) example_world 3 true kRuntimeError
           "apply failed" Status_OK eq_refl).
Defined.

(** C3 at a failing input.  An operation bound to a round gets the hybrid
    time 50 through [set_hybrid_time].  A second [set_hybrid_time] is stopped
    by its assertion.  [AddedToLeader] is not: it returns and has replaced
    the hybrid time by the one the MVCC manager issued, 101, and a second
    [AddedToLeader] replaces it again, by 102. *)
Theorem AddedToLeader_reassigns_hybrid_time :
  exists w1 w2 w3,
    set_hybrid_time (MkHybridTime 50) bound_world = (Returned tt, w1)
    /\ hybrid_time_ (self w1) = MkHybridTime 50
    /\ is_valid (hybrid_time_ (self w1)) = true
    /\ set_hybrid_time (MkHybridTime 60) w1
       = (Terminated (DCheckFailed "!hybrid_time_.is_valid()"), w1)
    /\ AddedToLeader (kind := mvcc_kind) (MkOpId 1 5) (MkOpId 1 4) w1
       = (Returned tt, w2)
    /\ hybrid_time_ (self w2) = MkHybridTime 101
    /\ AddedToLeader (kind := mvcc_kind) (MkOpId 1 6) (MkOpId 1 5) w2
       = (Returned tt, w3)
    /\ hybrid_time_ (self w3) = MkHybridTime 102.
Proof.
  eexists _, _, _.
  repeat (split; [cbv; reflexivity|]). cbv. reflexivity.
Qed.

(** C4 as stated fails for an operation type that does not use MVCC: bound
    to a round and given the id (1, 5), the operation gets its hybrid time,
    8, from the clock; the MVCC manager, which would have issued 101, is not
    called. *)
Lemma AddedToLeader_without_mvcc_counterexample :
  exists w',
    AddedToLeader (kind := plain_kind) (MkOpId 1 5) (MkOpId 1 4) bound_world
      = (Returned tt, w')
    /\ hybrid_time_ (self w') = MkHybridTime 8
    /\ fst (AddLeaderPending (MkOpId 1 5) (mvcc_manager example_tablet))
       = MkHybridTime 101
    /\ mvcc_events (events w') = []
    /\ events w' = [ClockNow (MkHybridTime 8); CallAddedAsPending].
Proof.
  eexists. repeat split; reflexivity.
Qed.

Lemma AddedToLeader_assigns_witness :
  (exists w' round',
      AddedToLeader (kind := mvcc_kind) (MkOpId 1 5) (MkOpId 1 4) bound_world
        = (Returned tt, w')
      /\ op_id_ (self w') = MkOpId 1 5
      /\ hybrid_time_ (self w') = MkHybridTime 101
      /\ consensus_round_ (self w') = Some round'
      /\ ConsensusRound_id round' = MkOpId 1 5
      /\ replicate_msg round' =
           MkReplicateMsg (Some (MkOpId 1 5)) (Some (MkOpId 1 4)) (Some 101%Z)
                          (Some 42%Z)
      /\ events w' =
           [MvccAddLeaderPending (MkOpId 1 5) (MkHybridTime 101);
            CallAddedAsPending]
      /\ tablet_ w' =
           Some (@MkTablet counting_collaborators "t1" 101%Z 7%Z 42%Z))
  /\ (exists w' round',
         AddedToLeader (kind := plain_kind) (MkOpId 1 5) (MkOpId 1 4)
                       bound_world
           = (Returned tt, w')
         /\ op_id_ (self w') = MkOpId 1 5
         /\ hybrid_time_ (self w') = MkHybridTime 8
         /\ consensus_round_ (self w') = Some round'
         /\ ConsensusRound_id round' = MkOpId 1 5
         /\ replicate_msg round' =
              MkReplicateMsg (Some (MkOpId 1 5)) (Some (MkOpId 1 4))
                             (Some 8%Z) (Some 42%Z)
         /\ events w' = [ClockNow (MkHybridTime 8); CallAddedAsPending]
         /\ tablet_ w' =
              Some (@MkTablet counting_collaborators "t1" 100%Z 8%Z 42%Z)).
Proof.
  split.
  - destruct (AddedToLeader_assigns (collaborators := counting_collaborators)
                (kind := mvcc_kind) bound_world example_tablet
                (MkConsensusRound empty_msg) (MkOpId 1 5) (MkOpId 1 4)
                eq_refl eq_refl)
      as (w' & round' & ht & Run & Id & Time & Round & RoundId & Msg & _ & _
          & Mvcc & _).
    destruct (Mvcc eq_refl) as (Issued & Events & Tb).
    rewrite Issued in Time, Msg, Events. exists w', round'.
    split; [exact Run|]. split; [exact Id|]. split; [exact Time|].
    split; [exact Round|]. split; [exact RoundId|]. split; [exact Msg|].
    split; [exact Events | exact Tb].
  - destruct (AddedToLeader_assigns (collaborators := counting_collaborators)
                (kind := plain_kind) bound_world example_tablet
                (MkConsensusRound empty_msg) (MkOpId 1 5) (MkOpId 1 4)
                eq_refl eq_refl)
      as (w' & round' & ht & Run & Id & Time & Round & RoundId & Msg & _ & _
          & _ & Plain).
    destruct (Plain eq_refl) as (Read & Events & Tb).
    rewrite Read in Time, Msg, Events. exists w', round'.
    split; [exact Run|]. split; [exact Id|]. split; [exact Time|].
    split; [exact Round|]. split; [exact RoundId|]. split; [exact Msg|].
    split; [exact Events | exact Tb].
Defined.

(** C5 as stated fails for an operation type that does not use MVCC: the
    operation has a hybrid time and is aborted as pending, and the MVCC
    manager gets no [Aborted] call. *)
Lemma Aborted_without_mvcc_counterexample :
  is_valid (hybrid_time_ (self assigned_world)) = true
  /\ exists w',
       Aborted (kind := plain_kind) (Status_Error kAborted "lost leadership")
               true assigned_world
         = (Returned tt, w')
       /\ mvcc_events (events w') = []
       /\ events w' =
            [CallRemovedFromPending; CallRelease;
             CallDoAborted (Status_Error kAborted "lost leadership");
             CompletionCallback 0 (Status_Error kAborted "lost leadership")].
Proof.
  split; [reflexivity|]. eexists. repeat split; reflexivity.
Qed.

Lemma Aborted_pending_witness :
  Aborted (kind := mvcc_kind) (Status_Error kAborted "lost leadership") true
          assigned_world
    = (Returned tt,
       @MkWorld counting_collaborators
         (MkOperation true (Some 0%nat) (Some (MkConsensusRound empty_msg))
                      (MkHybridTime 50) (MkOpId 1 5))
         (Some example_tablet)
         [MvccAborted (MkHybridTime 50) (MkOpId 1 5);
          CallRemovedFromPending; CallRelease;
          CallDoAborted (Status_Error kAborted "lost leadership");
          CompletionCallback 0 (Status_Error kAborted "lost leadership")])
  /\ Aborted (kind := mvcc_kind) (Status_Error kAborted "lost leadership") true
             bound_world
     = (Returned tt,
        @MkWorld counting_collaborators
          (MkOperation true (Some 0%nat) (Some (MkConsensusRound empty_msg))
                       HybridTime_kInvalid (MkOpId 0 0))
          (Some example_tablet)
          [CallRemovedFromPending; CallRelease;
           CallDoAborted (Status_Error kAborted "lost leadership");
           CompletionCallback 0 (Status_Error kAborted "lost leadership")]).
Proof.
  split.
  - exact (proj1 (Aborted_pending (collaborators := counting_collaborators)
                    (kind := mvcc_kind) assigned_world 0%nat
                    (Status_Error kAborted "lost leadership") eq_refl eq_refl)
                 eq_refl eq_refl example_tablet eq_refl).
  - exact (proj2 (Aborted_pending (collaborators := counting_collaborators)
                    (kind := mvcc_kind) bound_world 0%nat
                    (Status_Error kAborted "lost leadership") eq_refl eq_refl)
                 (or_intror eq_refl)).
Defined.

Lemma without_mvcc_witness :
  (exists w',
      AddedToLeader (kind := plain_kind) (MkOpId 1 5) (MkOpId 1 4) bound_world
        = (Returned tt, w')
      /\ hybrid_time_ (self w') = MkHybridTime 8
      /\ events w' = [ClockNow (MkHybridTime 8); CallAddedAsPending]
      /\ tablet_ w' = Some (@MkTablet counting_collaborators "t1" 100%Z 8%Z 42%Z))
  /\ AddedToFollower (kind := plain_kind) assigned_world
     = (Returned tt,
        @MkWorld counting_collaborators (self assigned_world)
                 (Some example_tablet) [CallAddedAsPending])
  /\ Replicated (kind := plain_kind) 3 true assigned_world
     = (Returned Status_OK,
        @MkWorld counting_collaborators
          (set_complete_ true (self assigned_world)) (Some example_tablet)
          [CallDoReplicated 3; CallRemovedFromPending; CallRelease;
           CompletionCallback 0 Status_OK])
  /\ Aborted (kind := plain_kind) (Status_Error kAborted "lost leadership")
             true assigned_world
     = (Returned tt,
        @MkWorld counting_collaborators
          (set_complete_ true (self assigned_world)) (Some example_tablet)
          [CallRemovedFromPending; CallRelease;
           CallDoAborted (Status_Error kAborted "lost leadership");
           CompletionCallback 0 (Status_Error kAborted "lost leadership")])
  /\ exists w',
       Replicated (kind := plain_kind) 3 true assigned_world
         = (Returned Status_OK, w')
       /\ same_but_mvcc w'
            (@MkWorld counting_collaborators
               (set_complete_ true (self assigned_world)) (Some example_tablet)
               [CallDoReplicated 3;
                MvccReplicated (MkHybridTime 50) (MkOpId 1 5);
                CallRemovedFromPending; CallRelease;
                CompletionCallback 0 Status_OK]).
Proof.
  destruct (without_mvcc (collaborators := counting_collaborators)
              (kind := plain_kind) eq_refl)
    as (Leader & Follower & Repl & Abort & _ & SameRepl & _).
  split; [|split; [|split; [|split]]].
  - exact (Leader bound_world example_tablet (MkConsensusRound empty_msg)
                  (MkOpId 1 5) (MkOpId 1 4) eq_refl eq_refl).
  - exact (Follower assigned_world).
  - exact (Repl assigned_world 3%Z true eq_refl eq_refl).
  - exact (Abort assigned_world (Status_Error kAborted "lost leadership") true
                 eq_refl).
  - exact (SameRepl assigned_world _ Status_OK 3%Z true eq_refl).
Defined.

(** ** Whole lifecycles *)

Ltac case_split :=
  repeat match goal with
    | _ => progress cbn in *
    | |- context [AddLeaderPending ?a ?b] =>
        destruct (AddLeaderPending a b) eqn:?
    | |- context [Now ?c] => destruct (Now c) eqn:?
    | |- context [DoReplicated ?a ?b] => destruct (DoReplicated a b) eqn:?
    | |- context [if ?b then _ else _] => destruct b eqn:?
    | |- context [match ?x with Some _ => _ | None => _ end] =>
        destruct x eqn:?
    | _ => discriminate
    end.

Section Lifecycles.

Context {collaborators : Collaborators} {kind : OperationKind}.

(** One step never takes a delivery back, and it delivers only by using up
    the one delivery that an incomplete operation still has. *)
Lemma run_call_delivers (c : Call) (w : World) :
  (delivered w <= delivered (snd (run_call c w)))%nat
  /\ (delivered (snd (run_call c w))
      + (if complete_ (self (snd (run_call c w))) then 0 else 1)
      <= delivered w + (if complete_ (self w) then 0 else 1))%nat
  /\ completion_clbk_ (self (snd (run_call c w))) = completion_clbk_ (self w).
Proof.
  destruct c; open_world w; cbn [run_call]; unfold destroy_tablet;
    unfold_methods; unfold delivered; case_split;
    rewrite ?filter_app, ?length_app; cbn; repeat split; lia.
Qed.

Lemma run_calls_delivers (cs : list Call) (w : World) :
  (delivered w <= delivered (snd (run_calls cs w)))%nat
  /\ (delivered (snd (run_calls cs w))
      + (if complete_ (self (snd (run_calls cs w))) then 0 else 1)
      <= delivered w + (if complete_ (self w) then 0 else 1))%nat
  /\ completion_clbk_ (self (snd (run_calls cs w)))
     = completion_clbk_ (self w).
Proof.
  revert w. induction cs as [|c cs IH]; intros w.
  - cbn. repeat split; lia.
  - cbn [run_calls]. unfold bind.
    pose proof (run_call_delivers c w) as (S1 & S2 & S3).
    destruct (run_call c w) as [[[]|t] w1]; cbn [snd] in *.
    + destruct (IH w1) as (I1 & I2 & I3).
      repeat split; [lia | lia | congruence].
    + repeat split; assumption.
Qed.

(** X6.  Whatever calls are made on an operation, in whatever order, and
    whenever its tablet is destroyed in between: the completion callback is
    invoked at most once more if the operation was not complete, and never
    again if it was; a complete operation stays complete; an invocation
    leaves the operation complete; and the registered callback is never
    replaced. *)
Theorem completion_at_most_once (cs : list Call) (w : World) :
  let w' := snd (run_calls cs w) in
  (delivered w <= delivered w')%nat
  /\ (delivered w' <= delivered w + (if complete_ (self w) then 0 else 1))%nat
  /\ (complete_ (self w) = true -> complete_ (self w') = true)
  /\ (delivered w < delivered w' -> complete_ (self w') = true)%nat
  /\ completion_clbk_ (self w') = completion_clbk_ (self w).
Proof.
  cbv zeta. destruct (run_calls_delivers cs w) as (H1 & H2 & H3).
  destruct (complete_ (self w)), (complete_ (self (snd (run_calls cs w))));
    repeat split; try assumption; try reflexivity; try lia; intros; lia.
Qed.

Lemma run_call_keeps_fields (c : Call) (w : World) :
  (writes_hybrid_time c = false ->
   hybrid_time_ (self (snd (run_call c w))) = hybrid_time_ (self w))
  /\ (writes_op_id c = false ->
      op_id_ (self (snd (run_call c w))) = op_id_ (self w)
      /\ consensus_round_ (self (snd (run_call c w)))
         = consensus_round_ (self w)).
Proof.
  destruct c; open_world w; cbn [run_call writes_hybrid_time writes_op_id];
    unfold destroy_tablet; unfold_methods;
    (split; [intros H | intros H; split]); try discriminate H;
    case_split; reflexivity.
Qed.

(** X7.  The hybrid time of an operation changes through [set_hybrid_time]
    and [AddedToLeader] only, its id and its round through
    [set_consensus_round] and [AddedToLeader] only: no sequence of other
    calls, [Replicated] and [Aborted] among them, alters them, however it
    ends. *)
Theorem fields_written_by (cs : list Call) (w : World) :
  (forallb (fun c => negb (writes_hybrid_time c)) cs = true ->
   hybrid_time_ (self (snd (run_calls cs w))) = hybrid_time_ (self w))
  /\ (forallb (fun c => negb (writes_op_id c)) cs = true ->
      op_id_ (self (snd (run_calls cs w))) = op_id_ (self w)
      /\ consensus_round_ (self (snd (run_calls cs w)))
         = consensus_round_ (self w)).
Proof.
  revert w. induction cs as [|c cs IH]; intros w.
  - cbn. repeat split.
  - cbn [run_calls forallb]. unfold bind.
    pose proof (run_call_keeps_fields c w) as (K1 & K2).
    destruct (run_call c w) as [[[]|t] w1]; cbn [snd] in *.
    + destruct (IH w1) as (I1 & I2). split.
      * intros H. apply andb_true_iff in H as [Hc Hcs].
        apply negb_true_iff in Hc. rewrite (I1 Hcs). now apply K1.
      * intros H. apply andb_true_iff in H as [Hc Hcs].
        apply negb_true_iff in Hc.
        destruct (I2 Hcs) as [-> ->]. now apply K2.
    + split; intros H; apply andb_true_iff in H as [Hc _];
        apply negb_true_iff in Hc; [now apply K1 | now apply K2].
Qed.

(** [Replicated] when the operation type uses MVCC and nothing is amiss. *)
Lemma Replicated_with_mvcc_run
    (w : World) (t : Tablet) (leader_term : Z) (was_pending : bool)
    (complete_status : Status) :
  use_mvcc = true ->
  tablet_ w = Some t ->
  is_valid (hybrid_time_ (self w)) = true ->
  complete_ (self w) = false ->
  DoReplicated leader_term Status_OK = (Status_OK, complete_status) ->
  Replicated leader_term was_pending w =
    (Returned Status_OK,
     MkWorld (set_complete_ true (self w))
       (Some (MkTablet (tablet_id t)
                (MvccManager_Replicated (hybrid_time_ (self w))
                                        (op_id_ (self w)) (mvcc_manager t))
                (clock t) (monotonic_counter t)))
       (events w
          ++ [CallDoReplicated leader_term;
              MvccReplicated (hybrid_time_ (self w)) (op_id_ (self w))]
          ++ pending_events was_pending
          ++ [CallRelease]
          ++ completion_events (self w) complete_status)).
Proof.
  intros Hm Ht Hv Hc Hook. open_world w. subst.
  unfold_methods. unfold pending_events, completion_events.
  cbn. rewrite Hook, Hm. cbn. rewrite Hv. cbn.
  destruct was_pending, clbk; cbn; rewrite <- ?app_assoc; cbn;
    rewrite ?app_nil_r; reflexivity.
Qed.

(** X8.  The leader's path, [AddedToLeader] then [Replicated], for an
    operation type that uses MVCC: the hybrid time that the MVCC manager
    issued for the id is the one reported to it as replicated, with the same
    id; this comes after the apply hook and before the operation leaves the
    pending ones, is released and completes, in that order; the callback
    gets the status the hook chose, and [Replicated] returns OK. *)
Theorem AddedToLeader_then_Replicated
    (w : World) (t : Tablet) (round : ConsensusRound)
    (clbk : OperationCompletionCallback) (op_id committed_op_id : OpId)
    (leader_term : Z) (complete_status : Status) :
  use_mvcc = true ->
  tablet_ w = Some t ->
  consensus_round_ (self w) = Some round ->
  complete_ (self w) = false ->
  completion_clbk_ (self w) = Some clbk ->
  DoReplicated leader_term Status_OK = (Status_OK, complete_status) ->
  is_valid (fst (AddLeaderPending op_id (mvcc_manager t))) = true ->
  exists w',
    bind (AddedToLeader op_id committed_op_id)
         (fun _ => Replicated leader_term true) w
      = (Returned Status_OK, w')
    /\ events w' =
         events w
           ++ [MvccAddLeaderPending op_id
                 (fst (AddLeaderPending op_id (mvcc_manager t)));
               CallAddedAsPending;
               CallDoReplicated leader_term;
               MvccReplicated (fst (AddLeaderPending op_id (mvcc_manager t)))
                              op_id;
               CallRemovedFromPending;
               CallRelease;
               CompletionCallback clbk complete_status]
    /\ complete_ (self w') = true
    /\ option_map mvcc_manager (tablet_ w') =
         Some (MvccManager_Replicated
                 (fst (AddLeaderPending op_id (mvcc_manager t))) op_id
                 (snd (AddLeaderPending op_id (mvcc_manager t)))).
Proof.
  intros Hm Ht Hr Hc Hcb Hook Hv.
  unfold bind at 1.
  rewrite (AddedToLeader_run w t round op_id committed_op_id Ht Hr), Hm.
  cbv beta iota zeta.
  erewrite Replicated_with_mvcc_run;
    [ | exact Hm | reflexivity | exact Hv | exact Hc | exact Hook ].
  eexists. split; [reflexivity|].
  unfold completion_events, pending_events.
  cbn [self events tablet_ completion_clbk_ complete_ set_complete_
       hybrid_time_ op_id_ option_map mvcc_manager].
  rewrite Hcb, <- !app_assoc. repeat split; reflexivity.
Qed.

(** X9.  The leader's path, [AddedToLeader] then [Aborted], for an operation
    type that uses MVCC: the MVCC manager is told that the hybrid time it
    issued is aborted, with the same id, unless the hybrid time it issued is
    the invalid one, in which case it is told nothing; either way the
    operation leaves the pending ones, is released and completes with
    [DoAborted status]. *)
Theorem AddedToLeader_then_Aborted
    (w : World) (t : Tablet) (round : ConsensusRound)
    (clbk : OperationCompletionCallback) (op_id committed_op_id : OpId)
    (status : Status) :
  use_mvcc = true ->
  tablet_ w = Some t ->
  consensus_round_ (self w) = Some round ->
  complete_ (self w) = false ->
  completion_clbk_ (self w) = Some clbk ->
  exists w',
    bind (AddedToLeader op_id committed_op_id)
         (fun _ => Aborted status true) w
      = (Returned tt, w')
    /\ events w' =
         events w
           ++ [MvccAddLeaderPending op_id
                 (fst (AddLeaderPending op_id (mvcc_manager t)));
               CallAddedAsPending]
           ++ (if is_valid (fst (AddLeaderPending op_id (mvcc_manager t)))
               then [MvccAborted
                       (fst (AddLeaderPending op_id (mvcc_manager t))) op_id]
               else [])
           ++ [CallRemovedFromPending; CallRelease; CallDoAborted status;
               CompletionCallback clbk (DoAborted status)]
    /\ complete_ (self w') = true.
Proof.
  intros Hm Ht Hr Hc Hcb.
  unfold bind at 1.
  rewrite (AddedToLeader_run w t round op_id committed_op_id Ht Hr), Hm.
  cbv beta iota zeta.
  set (ht := fst (AddLeaderPending op_id (mvcc_manager t))).
  match goal with |- context [Aborted status true ?x] => set (w1 := x) end.
  assert (complete_ (self w1) = false) as Hc1 by exact Hc.
  assert (completion_clbk_ (self w1) = Some clbk) as Hcb1 by exact Hcb.
  destruct (Aborted_pending w1 clbk status Hc1 Hcb1) as [Valid Invalid].
  destruct (is_valid ht) eqn:Hv.
  - rewrite (Valid Hm Hv _ eq_refl). eexists. split; [reflexivity|].
    cbn [events self complete_ set_complete_ w1 hybrid_time_ op_id_].
    rewrite <- !app_assoc. split; reflexivity.
  - rewrite (Invalid (or_intror Hv)). eexists. split; [reflexivity|].
    cbn [events self complete_ set_complete_ w1].
    rewrite <- !app_assoc. split; reflexivity.
Qed.

(** X10.  The follower's path for an operation type that uses MVCC:
    [set_consensus_round], [set_hybrid_time], [AddedToFollower] and
    [Replicated] in turn.  The operation takes the id of the round; the MVCC
    manager is told of the received hybrid time as pending and then as
    replicated, both times with the id of the round; the callback gets the
    status the apply hook chose. *)
Theorem follower_path
    (w : World) (t : Tablet) (clbk : OperationCompletionCallback)
    (consensus_round : ConsensusRound) (hybrid_time : HybridTime)
    (leader_term : Z) (complete_status : Status) :
  use_mvcc = true ->
  tablet_ w = Some t ->
  complete_ (self w) = false ->
  completion_clbk_ (self w) = Some clbk ->
  is_valid (hybrid_time_ (self w)) = false ->
  is_valid hybrid_time = true ->
  DoReplicated leader_term Status_OK = (Status_OK, complete_status) ->
  exists w',
    bind (set_consensus_round consensus_round)
         (fun _ => bind (set_hybrid_time hybrid_time)
         (fun _ => bind AddedToFollower
         (fun _ => Replicated leader_term true))) w
      = (Returned Status_OK, w')
    /\ op_id_ (self w') = ConsensusRound_id consensus_round
    /\ hybrid_time_ (self w') = hybrid_time
    /\ events w' =
         events w
           ++ [CallUpdateRequestFromConsensusRound;
               MvccAddFollowerPending hybrid_time
                 (ConsensusRound_id consensus_round);
               CallAddedAsPending;
               CallDoReplicated leader_term;
               MvccReplicated hybrid_time (ConsensusRound_id consensus_round);
               CallRemovedFromPending;
               CallRelease;
               CompletionCallback clbk complete_status]
    /\ option_map mvcc_manager (tablet_ w') =
         Some (MvccManager_Replicated hybrid_time
                 (ConsensusRound_id consensus_round)
                 (AddFollowerPending hybrid_time
                    (ConsensusRound_id consensus_round) (mvcc_manager t))).
Proof.
  intros Hm Ht Hc Hcb Hunset Hv Hook. open_world w. subst.
  unfold_methods.
  repeat first [ rewrite Hunset | rewrite Hm | rewrite Hv | rewrite Hook
               | progress cbn ].
  eexists. split; [reflexivity|]. cbn. rewrite <- !app_assoc.
  repeat split; reflexivity.
Qed.

(** X12.  Once the tablet has been destroyed: [AddedToLeader] ends the
    process at once, before it asks for a hybrid time or writes a field;
    for an operation type that uses MVCC, so does [AddedToFollower]; so does
    [Replicated] when the apply hook succeeds, after the hook has run and
    before anything else; and so does [Aborted] when a hybrid time has been
    assigned.  None of them invokes the callback or completes the
    operation. *)
Theorem calls_after_tablet_destroyed (w : World) :
  tablet_ w = None ->
  let fatal := LogMessage FATAL "" destroyed_text None in
  (forall op_id committed_op_id,
      AddedToLeader op_id committed_op_id w =
        (Terminated (FatalLog destroyed_text),
         MkWorld (self w) None (events w ++ [fatal])))
  /\ (use_mvcc = true ->
      AddedToFollower w =
        (Terminated (FatalLog destroyed_text),
         MkWorld (self w) None (events w ++ [fatal])))
  /\ (use_mvcc = true ->
      forall leader_term was_pending,
        ok (fst (DoReplicated leader_term Status_OK)) = true ->
        Replicated leader_term was_pending w =
          (Terminated (FatalLog destroyed_text),
           MkWorld (self w) None
                   (events w ++ [CallDoReplicated leader_term; fatal])))
  /\ (use_mvcc = true ->
      is_valid (hybrid_time_ (self w)) = true ->
      forall status was_pending,
        Aborted status was_pending w =
          (Terminated (FatalLog destroyed_text),
           MkWorld (self w) None (events w ++ [fatal]))).
Proof.
  intros Ht. cbv zeta. open_world w. subst. repeat apply conj.
  - intros op_id committed_op_id. unfold_methods. reflexivity.
  - intros Hm. unfold_methods. rewrite Hm. reflexivity.
  - intros Hm leader_term was_pending Hok. unfold_methods. cbn.
    destruct (DoReplicated leader_term Status_OK) as [s cs]. cbn in Hok.
    rewrite Hok, Hm. cbn. rewrite <- app_assoc. reflexivity.
  - intros Hm Hv status was_pending. unfold_methods. rewrite Hm. cbn.
    rewrite Hv. reflexivity.
Qed.

Lemma run_call_without_mvcc (c : Call) (w : World) :
  use_mvcc = false ->
  mvcc_events (events (snd (run_call c w))) = mvcc_events (events w)
  /\ (tablet_ (snd (run_call c w)) = None
      \/ option_map mvcc_manager (tablet_ (snd (run_call c w)))
         = option_map mvcc_manager (tablet_ w)).
Proof.
  intros Hm.
  destruct c; open_world w; cbn [run_call]; unfold destroy_tablet;
    unfold_methods; unfold mvcc_events; rewrite ?Hm; case_split;
    rewrite ?filter_app; cbn; rewrite ?app_nil_r; auto.
Qed.

(** X15.  An operation type that does not use MVCC never calls the MVCC
    manager: whatever calls are made on the operation, no MVCC call is added
    to the events and, as long as the tablet is there, the state of its MVCC
    manager is the one it had. *)
Theorem never_calls_mvcc (cs : list Call) (w : World) :
  use_mvcc = false ->
  mvcc_events (events (snd (run_calls cs w))) = mvcc_events (events w)
  /\ (tablet_ (snd (run_calls cs w)) = None
      \/ option_map mvcc_manager (tablet_ (snd (run_calls cs w)))
         = option_map mvcc_manager (tablet_ w)).
Proof.
  intros Hm. revert w. induction cs as [|c cs IH]; intros w.
  - cbn. auto.
  - cbn [run_calls]. unfold bind.
    pose proof (run_call_without_mvcc c w Hm) as (E1 & T1).
    destruct (run_call c w) as [[[]|t] w1]; cbn [snd] in *.
    + destruct (IH w1) as (E2 & T2). split; [congruence|].
      destruct T2 as [T2|T2]; [now left|].
      destruct T1 as [T1|T1]; [|right; congruence].
      rewrite T1 in T2. cbn in T2.
      destruct (tablet_ (snd (run_calls cs w1))); [discriminate | now left].
    + split; assumption.
Qed.

End Lifecycles.

Lemma completion_at_most_once_witness :
  let calls := [Call_AddedToLeader (MkOpId 1 5) (MkOpId 1 4);
                Call_Aborted (Status_Error kAborted "lost leadership") true;
                TabletDestroyed;
                Call_Replicated 3 false;
                Call_CompleteWithStatus Status_OK] in
  let w' := snd (run_calls (kind := plain_kind) calls bound_world) in
  delivered w' = 1%nat /\ complete_ (self w') = true.
Proof.
  cbv zeta.
  destruct (completion_at_most_once (collaborators := counting_collaborators)
              (kind := plain_kind)
              [Call_AddedToLeader (MkOpId 1 5) (MkOpId 1 4);
               Call_Aborted (Status_Error kAborted "lost leadership") true;
               TabletDestroyed;
               Call_Replicated 3 false;
               Call_CompleteWithStatus Status_OK] bound_world)
    as (_ & _ & _ & Completes & _).
  split; [reflexivity|]. apply Completes. cbv. lia.
Defined.

Lemma fields_written_by_witness :
  let calls := [Call_AddedToFollower;
                Call_Replicated 3 true;
                Call_Aborted (Status_Error kAborted "lost leadership") false;
                Call_CompleteWithStatus Status_OK] in
  let w' := snd (run_calls (kind := mvcc_kind) calls assigned_world) in
  hybrid_time_ (self w') = MkHybridTime 50
  /\ op_id_ (self w') = MkOpId 1 5
  /\ consensus_round_ (self w') = Some (MkConsensusRound empty_msg).
Proof.
  cbv zeta.
  destruct (fields_written_by (collaborators := counting_collaborators)
              (kind := mvcc_kind)
              [Call_AddedToFollower;
               Call_Replicated 3 true;
               Call_Aborted (Status_Error kAborted "lost leadership") false;
               Call_CompleteWithStatus Status_OK] assigned_world)
    as (Time & Id).
  split; [exact (Time eq_refl) | exact (Id eq_refl)].
Defined.

Lemma AddedToLeader_then_Replicated_witness :
  exists w',
    bind (AddedToLeader (kind := mvcc_kind) (MkOpId 1 5) (MkOpId 1 4))
         (fun _ => Replicated (kind := mvcc_kind) 3 true) bound_world
      = (Returned Status_OK, w')
    /\ events w' =
         [MvccAddLeaderPending (MkOpId 1 5) (MkHybridTime 101);
          CallAddedAsPending;
          CallDoReplicated 3;
          MvccReplicated (MkHybridTime 101) (MkOpId 1 5);
          CallRemovedFromPending;
          CallRelease;
          CompletionCallback 0 Status_OK]
    /\ complete_ (self w') = true
    /\ option_map mvcc_manager (tablet_ w') = Some 101%Z.
Proof.
  exact (AddedToLeader_then_Replicated
           (collaborators := counting_collaborators) (kind := mvcc_kind)
           bound_world example_tablet (MkConsensusRound empty_msg) 0%nat
           (MkOpId 1 5) (MkOpId 1 4) 3%Z Status_OK
           eq_refl eq_refl eq_refl eq_refl eq_refl eq_refl eq_refl).
Defined.

Lemma AddedToLeader_then_Aborted_witness :
  exists w',
    bind (AddedToLeader (kind := mvcc_kind) (MkOpId 1 5) (MkOpId 1 4))
         (fun _ => Aborted (kind := mvcc_kind)
                           (Status_Error kAborted "lost leadership") true)
         bound_world
      = (Returned tt, w')
    /\ events w' =
         [MvccAddLeaderPending (MkOpId 1 5) (MkHybridTime 101);
          CallAddedAsPending;
          MvccAborted (MkHybridTime 101) (MkOpId 1 5);
          CallRemovedFromPending; CallRelease;
          CallDoAborted (Status_Error kAborted "lost leadership");
          CompletionCallback 0 (Status_Error kAborted "lost leadership")]
    /\ complete_ (self w') = true.
Proof.
  exact (AddedToLeader_then_Aborted
           (collaborators := counting_collaborators) (kind := mvcc_kind)
           bound_world example_tablet (MkConsensusRound empty_msg) 0%nat
           (MkOpId 1 5) (MkOpId 1 4) (Status_Error kAborted "lost leadership")
           eq_refl eq_refl eq_refl eq_refl eq_refl).
Defined.

Lemma follower_path_witness :
  let round := MkConsensusRound (set_id (MkOpId 2 9) empty_msg) in
  exists w',
    bind (set_consensus_round round)
         (fun _ => bind (set_hybrid_time (MkHybridTime 77))
         (fun _ => bind (AddedToFollower (kind := mvcc_kind))
         (fun _ => Replicated (kind := mvcc_kind) 3 true))) example_world
      = (Returned Status_OK, w')
    /\ op_id_ (self w') = MkOpId 2 9
    /\ hybrid_time_ (self w') = MkHybridTime 77
    /\ events w' =
         [CallUpdateRequestFromConsensusRound;
          MvccAddFollowerPending (MkHybridTime 77) (MkOpId 2 9);
          CallAddedAsPending;
          CallDoReplicated 3;
          MvccReplicated (MkHybridTime 77) (MkOpId 2 9);
          CallRemovedFromPending;
          CallRelease;
          CompletionCallback 0 Status_OK]
    /\ option_map mvcc_manager (tablet_ w') = Some 100%Z.
Proof.
  cbv zeta.
  exact (follower_path
           (collaborators := counting_collaborators) (kind := mvcc_kind)
           example_world example_tablet 0%nat
           (MkConsensusRound (set_id (MkOpId 2 9) empty_msg))
           (MkHybridTime 77) 3%Z Status_OK
           eq_refl eq_refl eq_refl eq_refl eq_refl eq_refl eq_refl).
Defined.

Lemma never_calls_mvcc_witness :
  let calls := [Call_AddedToLeader (MkOpId 1 5) (MkOpId 1 4);
                Call_Replicated 3 true;
                Call_Aborted (Status_Error kAborted "late") false] in
  let w' := snd (run_calls (kind := plain_kind) calls bound_world) in
  mvcc_events (events w') = []
  /\ option_map mvcc_manager (tablet_ w') = Some 100%Z.
Proof.
  cbv zeta.
  destruct (never_calls_mvcc (collaborators := counting_collaborators)
              (kind := plain_kind)
              [Call_AddedToLeader (MkOpId 1 5) (MkOpId 1 4);
               Call_Replicated 3 true;
               Call_Aborted (Status_Error kAborted "late") false]
              bound_world eq_refl)
    as (Events & _).
  split; [exact Events | reflexivity].
Defined.

Lemma calls_after_tablet_destroyed_witness :
  let w := @MkWorld counting_collaborators (self assigned_world) None [] in
  let fatal := LogMessage FATAL "" destroyed_text None in
  AddedToLeader (kind := mvcc_kind) (MkOpId 1 5) (MkOpId 1 4) w
    = (Terminated (FatalLog destroyed_text),
       @MkWorld counting_collaborators (self assigned_world) None [fatal])
  /\ AddedToFollower (kind := mvcc_kind) w
     = (Terminated (FatalLog destroyed_text),
        @MkWorld counting_collaborators (self assigned_world) None [fatal])
  /\ Replicated (kind := mvcc_kind) 3 true w
     = (Terminated (FatalLog destroyed_text),
        @MkWorld counting_collaborators (self assigned_world) None
                 [CallDoReplicated 3; fatal])
  /\ Aborted (kind := mvcc_kind) Status_OK true w
     = (Terminated (FatalLog destroyed_text),
        @MkWorld counting_collaborators (self assigned_world) None [fatal]).
Proof.
  cbv zeta.
  destruct (calls_after_tablet_destroyed
              (collaborators := counting_collaborators) (kind := mvcc_kind)
              (@MkWorld counting_collaborators (self assigned_world) None [])
              eq_refl)
    as (Leader & Follower & Repl & Abort).
  split; [exact (Leader (MkOpId 1 5) (MkOpId 1 4))|].
  split; [exact (Follower eq_refl)|].
  split; [exact (Repl eq_refl 3%Z true eq_refl)|].
  exact (Abort eq_refl eq_refl Status_OK true).
Defined.

End OperationFacts.

(* ===================================================================== *)
(** * Facts about xfunc.h                                                 *)
(* ===================================================================== *)

Module XFuncFacts.
Import XFunc.
Local Open Scope string_scope.
Local Open Scope list_scope.

Lemma Check_after_Init (env : option string) (condition : string)
    (p : XFuncPoint) :
  Check condition (Init env p) = selected env condition.
Proof. destruct env; reflexivity. Qed.

(** Once initialized, the static state no longer changes and decides every
    test point. *)
Lemma run_test_points_initialized
    (points : list (string * option string)) (p : XFuncPoint) :
  initialized_ p = true ->
  run_test_points points p
  = (map (fun point => Check (fst point) p) points, p).
Proof.
  intros Hi. induction points as [|[condition env] rest IH].
  - reflexivity.
  - cbn [run_test_points map fst]. unfold XFUNC_TEST, Initialized.
    rewrite Hi. cbn [negb]. now rewrite IH.
Qed.

(** X13.  The environment variable is read once.  From a state that is not
    yet initialized, the first test point initializes it from the value the
    variable has then; that point and every later one runs exactly when its
    condition is empty or equal to that value, and none runs if the variable
    was unset, whatever the variable is changed to afterwards; the skip
    policy is not touched. *)
Theorem environment_read_once
    (condition : string) (env : option string)
    (rest : list (string * option string)) (p : XFuncPoint) :
  initialized_ p = false ->
  run_test_points ((condition, env) :: rest) p
  = (map (selected env) (condition :: map fst rest), Init env p)
  /\ Initialized (Init env p) = true
  /\ GetSkip (Init env p) = GetSkip p
  /\ (env = None ->
      fst (run_test_points ((condition, env) :: rest) p)
      = false :: map (fun _ => false) rest).
Proof.
  intros Hi.
  assert (run_test_points ((condition, env) :: rest) p
          = (map (selected env) (condition :: map fst rest), Init env p)) as R.
  { cbn [run_test_points]. unfold XFUNC_TEST at 1, Initialized.
    rewrite Hi. cbn [negb].
    rewrite run_test_points_initialized by (destruct env; reflexivity).
    cbn [map]. rewrite Check_after_Init, map_map. f_equal. f_equal.
    apply map_ext. intros point. apply Check_after_Init. }
  split; [exact R|]. split; [destruct env; reflexivity|].
  split; [destruct env; reflexivity|].
  intros ->. rewrite R. cbn [fst map selected]. now rewrite map_map.
Qed.

Lemma environment_read_once_witness :
  run_test_points
    [("", Some "managed_new"); ("managed_new", None);
     ("transaction", Some "transaction")]
    (MkXFuncPoint "" false false 0)
  = ([true; true; false], MkXFuncPoint "managed_new" true true 0).
Proof.
  exact (proj1 (environment_read_once "" (Some "managed_new")
                  [("managed_new", None); ("transaction", Some "transaction")]
                  (MkXFuncPoint "" false false 0) eq_refl)).
Defined.

End XFuncFacts.
